(** * SigDigger: the audio channel controller (AudioProcessor.cpp)

    A shallow embedding of [SigDigger::AudioProcessor], the asynchronous
    open / configure / stream / close state machine that drives a remote
    inspector and a local playback sink.

    Modelling decisions, all of them visible in the definitions below:

    - The member variables of the class form the record [State].
    - Every call on a collaborator (playback sink, request tracker, remote
      analyzer) and every Qt signal emitted is appended, in program order,
      to an effect log.  What a collaborator answers ([requestOpen], the
      rate the sink reports, whether [suscan_config_dup] succeeds) is an
      input of the call that needs it.
    - [assert] aborts the run, and so does a call through a null pointer.
      [closeAudio] is declared [bool] and reaches its end without a
      [return], which is undefined behaviour: the run stops there, with
      the calls made so far, and nothing is said about what would follow.
    - [SUFLOAT] and [SUFREQ] quantities are rationals: the development is
      about the control flow of the controller, not about rounding.
    - [unsigned] and [uint64_t] quantities are integers in [Z].  The code
      copies and compares them, halves the analyzer rate, and converts
      [floor (bw)] back to [unsigned] only when it lies below a rate that
      is itself an [unsigned]; none of this wraps around. *)

From Stdlib Require Import ZArith QArith Qabs Qround Lia.
From stdpp Require Import base option list strings gmap.

Open Scope Z_scope.
Open Scope string_scope.

(** ** Data model *)

(** Modelled from the spec: [Suscan::Analyzer] (Suscan/Analyzer.h is not
    among the sources), as far as the controller looks at it: the value
    returned by [getSampleRate ()], the analyzer sample rate, an integer
    count that [openAudio] casts to [SUFREQ] after halving it. *)
Record Analyzer := { getSampleRate : Z }.

(** [Suscan::Channel] as filled in by [openAudio]. *)
Record Channel := {
  ch_bw : Q;
  ch_ft : Q;
  ch_fc : Q;
  ch_fLow : Q;
  ch_fHigh : Q
}.

(** [Suscan::Orbit] is an opaque payload handed through to the analyzer. *)
Inductive Orbit := OrbitData (tag : Z).

(** Modelled from the spec: [enum AudioDemod] of AudioProcessor.h (not
    among the sources), the demodulation mode selector. *)
Inductive AudioDemod := AM | FM | USB | LSB.

(** One value of a configuration field ([struct suscan_field_value]); the
    constructor records which overload of [Suscan::Config::set] wrote it. *)
Inductive FieldValue :=
| FInt (n : Z)
| FFloat (q : Q)
| FBool (b : bool).

(** [value->as_int]: the integer member, present for an integer field. *)
Definition as_int (v : FieldValue) : option Z :=
  match v with
  | FInt n => Some n
  | _ => None
  end.

(** A configuration object ([suscan_config_t], [Suscan::Config]): a finite
    map from field names to values. *)
Abbreviation Config := (gmap string FieldValue).

(** [suscan_config_get_value (cfg, name)]: null when the field is absent. *)
Definition suscan_config_get_value (cfg : Config) (name : string)
  : option FieldValue := cfg !! name.

(** [suscan_config_dup (config)]: a copy, or null when allocation fails. *)
Definition suscan_config_dup (alloc_ok : bool) (config : Config)
  : option Config := if alloc_ok then Some config else None.

(** [Suscan::AnalyzerRequest], the two members read by [onOpened]. *)
Record AnalyzerRequest := { req_handle : Z; req_inspectorId : Z }.

(** Kinds of inspector message told apart by [onInspectorMessage]. *)
Inductive MsgKind :=
| SUSCAN_ANALYZER_INSPECTOR_MSGKIND_SET_CONFIG
| SUSCAN_ANALYZER_INSPECTOR_MSGKIND_WRONG_KIND
| SUSCAN_ANALYZER_INSPECTOR_MSGKIND_WRONG_OBJECT
| SUSCAN_ANALYZER_INSPECTOR_MSGKIND_WRONG_HANDLE
| SUSCAN_ANALYZER_INSPECTOR_MSGKIND_OTHER.

Record InspectorMessage := {
  msg_getInspectorId : Z;
  msg_getKind : MsgKind;
  msg_getCConfig : Config
}.

(** [SUCOMPLEX]: real and imaginary part. *)
Definition SUCOMPLEX : Type := Q * Q.

Definition SUCOMPLEX_zero : SUCOMPLEX := (0%Q, 0%Q).

(** [Suscan::SamplesMessage]; [getCount()] is the length of the batch. *)
Record SamplesMessage := {
  smp_getInspectorId : Z;
  smp_getSamples : list SUCOMPLEX
}.

Definition smp_getCount (msg : SamplesMessage) : nat :=
  length (smp_getSamples msg).

(** Calls on collaborators and signals emitted, as they appear in the log. *)
Inductive Effect :=
| PlaybackSetVolume (v : Q)
| PlaybackSetSampleRate (rate : Z)
| PlaybackStart
| PlaybackStop
| PlaybackWrite (samples : list SUCOMPLEX) (count : nat)
| TrackerSetAnalyzer (a : option Analyzer)
| TrackerRequestOpen (cls : string) (ch : Channel)
| TrackerCancelAll
| AnalyzerDisconnect
| AnalyzerCloseInspector (handle : Z)
| AnalyzerSetInspectorConfig (handle : Z) (cfg : Config)
| AnalyzerSetInspectorFreq (handle : Z) (freq : Q)
| AnalyzerSetInspectorDopplerCorrection (handle : Z) (orbit : Orbit)
| EmitAudioOpened
| EmitAudioError (message : string).

(** The member variables of [AudioProcessor].  [m_playBack] and [m_tracker]
    are pointers of which only nullness matters: [true] is non-null. *)
Record State := {
  m_analyzer : option Analyzer;
  m_playBack : bool;
  m_tracker : bool;
  m_enabled : bool;
  m_opening : bool;
  m_opened : bool;
  m_settingRate : bool;
  m_audioInspectorOpened : bool;
  m_audioInspHandle : Z;
  m_audioInspId : Z;
  m_audioCfgTemplate : option Config;
  m_sampleRate : Z;
  m_cutOff : Q;
  m_volume : Q;
  m_squelch : bool;
  m_squelchLevel : Q;
  m_demod : AudioDemod;
  m_lo : Q;
  m_correctionEnabled : bool;
  m_orbit : Orbit
}.

(** Assignments to single members. *)

Definition set_m_analyzer (v : option Analyzer) (s : State) : State :=
  {| m_analyzer := v; m_playBack := m_playBack s; m_tracker := m_tracker s;
     m_enabled := m_enabled s; m_opening := m_opening s;
     m_opened := m_opened s; m_settingRate := m_settingRate s;
     m_audioInspectorOpened := m_audioInspectorOpened s;
     m_audioInspHandle := m_audioInspHandle s;
     m_audioInspId := m_audioInspId s;
     m_audioCfgTemplate := m_audioCfgTemplate s;
     m_sampleRate := m_sampleRate s; m_cutOff := m_cutOff s;
     m_volume := m_volume s; m_squelch := m_squelch s;
     m_squelchLevel := m_squelchLevel s; m_demod := m_demod s;
     m_lo := m_lo s; m_correctionEnabled := m_correctionEnabled s;
     m_orbit := m_orbit s |}.

Definition set_m_enabled (v : bool) (s : State) : State :=
  {| m_analyzer := m_analyzer s; m_playBack := m_playBack s;
     m_tracker := m_tracker s; m_enabled := v; m_opening := m_opening s;
     m_opened := m_opened s; m_settingRate := m_settingRate s;
     m_audioInspectorOpened := m_audioInspectorOpened s;
     m_audioInspHandle := m_audioInspHandle s;
     m_audioInspId := m_audioInspId s;
     m_audioCfgTemplate := m_audioCfgTemplate s;
     m_sampleRate := m_sampleRate s; m_cutOff := m_cutOff s;
     m_volume := m_volume s; m_squelch := m_squelch s;
     m_squelchLevel := m_squelchLevel s; m_demod := m_demod s;
     m_lo := m_lo s; m_correctionEnabled := m_correctionEnabled s;
     m_orbit := m_orbit s |}.

Definition set_m_opening (v : bool) (s : State) : State :=
  {| m_analyzer := m_analyzer s; m_playBack := m_playBack s;
     m_tracker := m_tracker s; m_enabled := m_enabled s; m_opening := v;
     m_opened := m_opened s; m_settingRate := m_settingRate s;
     m_audioInspectorOpened := m_audioInspectorOpened s;
     m_audioInspHandle := m_audioInspHandle s;
     m_audioInspId := m_audioInspId s;
     m_audioCfgTemplate := m_audioCfgTemplate s;
     m_sampleRate := m_sampleRate s; m_cutOff := m_cutOff s;
     m_volume := m_volume s; m_squelch := m_squelch s;
     m_squelchLevel := m_squelchLevel s; m_demod := m_demod s;
     m_lo := m_lo s; m_correctionEnabled := m_correctionEnabled s;
     m_orbit := m_orbit s |}.

Definition set_m_opened (v : bool) (s : State) : State :=
  {| m_analyzer := m_analyzer s; m_playBack := m_playBack s;
     m_tracker := m_tracker s; m_enabled := m_enabled s;
     m_opening := m_opening s; m_opened := v;
     m_settingRate := m_settingRate s;
     m_audioInspectorOpened := m_audioInspectorOpened s;
     m_audioInspHandle := m_audioInspHandle s;
     m_audioInspId := m_audioInspId s;
     m_audioCfgTemplate := m_audioCfgTemplate s;
     m_sampleRate := m_sampleRate s; m_cutOff := m_cutOff s;
     m_volume := m_volume s; m_squelch := m_squelch s;
     m_squelchLevel := m_squelchLevel s; m_demod := m_demod s;
     m_lo := m_lo s; m_correctionEnabled := m_correctionEnabled s;
     m_orbit := m_orbit s |}.

Definition set_m_settingRate (v : bool) (s : State) : State :=
  {| m_analyzer := m_analyzer s; m_playBack := m_playBack s;
     m_tracker := m_tracker s; m_enabled := m_enabled s;
     m_opening := m_opening s; m_opened := m_opened s; m_settingRate := v;
     m_audioInspectorOpened := m_audioInspectorOpened s;
     m_audioInspHandle := m_audioInspHandle s;
     m_audioInspId := m_audioInspId s;
     m_audioCfgTemplate := m_audioCfgTemplate s;
     m_sampleRate := m_sampleRate s; m_cutOff := m_cutOff s;
     m_volume := m_volume s; m_squelch := m_squelch s;
     m_squelchLevel := m_squelchLevel s; m_demod := m_demod s;
     m_lo := m_lo s; m_correctionEnabled := m_correctionEnabled s;
     m_orbit := m_orbit s |}.

Definition set_m_audioInspectorOpened (v : bool) (s : State) : State :=
  {| m_analyzer := m_analyzer s; m_playBack := m_playBack s;
     m_tracker := m_tracker s; m_enabled := m_enabled s;
     m_opening := m_opening s; m_opened := m_opened s;
     m_settingRate := m_settingRate s; m_audioInspectorOpened := v;
     m_audioInspHandle := m_audioInspHandle s;
     m_audioInspId := m_audioInspId s;
     m_audioCfgTemplate := m_audioCfgTemplate s;
     m_sampleRate := m_sampleRate s; m_cutOff := m_cutOff s;
     m_volume := m_volume s; m_squelch := m_squelch s;
     m_squelchLevel := m_squelchLevel s; m_demod := m_demod s;
     m_lo := m_lo s; m_correctionEnabled := m_correctionEnabled s;
     m_orbit := m_orbit s |}.

Definition set_m_audioInspHandle (v : Z) (s : State) : State :=
  {| m_analyzer := m_analyzer s; m_playBack := m_playBack s;
     m_tracker := m_tracker s; m_enabled := m_enabled s;
     m_opening := m_opening s; m_opened := m_opened s;
     m_settingRate := m_settingRate s;
     m_audioInspectorOpened := m_audioInspectorOpened s;
     m_audioInspHandle := v; m_audioInspId := m_audioInspId s;
     m_audioCfgTemplate := m_audioCfgTemplate s;
     m_sampleRate := m_sampleRate s; m_cutOff := m_cutOff s;
     m_volume := m_volume s; m_squelch := m_squelch s;
     m_squelchLevel := m_squelchLevel s; m_demod := m_demod s;
     m_lo := m_lo s; m_correctionEnabled := m_correctionEnabled s;
     m_orbit := m_orbit s |}.

Definition set_m_audioInspId (v : Z) (s : State) : State :=
  {| m_analyzer := m_analyzer s; m_playBack := m_playBack s;
     m_tracker := m_tracker s; m_enabled := m_enabled s;
     m_opening := m_opening s; m_opened := m_opened s;
     m_settingRate := m_settingRate s;
     m_audioInspectorOpened := m_audioInspectorOpened s;
     m_audioInspHandle := m_audioInspHandle s; m_audioInspId := v;
     m_audioCfgTemplate := m_audioCfgTemplate s;
     m_sampleRate := m_sampleRate s; m_cutOff := m_cutOff s;
     m_volume := m_volume s; m_squelch := m_squelch s;
     m_squelchLevel := m_squelchLevel s; m_demod := m_demod s;
     m_lo := m_lo s; m_correctionEnabled := m_correctionEnabled s;
     m_orbit := m_orbit s |}.

Definition set_m_audioCfgTemplate (v : option Config) (s : State) : State :=
  {| m_analyzer := m_analyzer s; m_playBack := m_playBack s;
     m_tracker := m_tracker s; m_enabled := m_enabled s;
     m_opening := m_opening s; m_opened := m_opened s;
     m_settingRate := m_settingRate s;
     m_audioInspectorOpened := m_audioInspectorOpened s;
     m_audioInspHandle := m_audioInspHandle s;
     m_audioInspId := m_audioInspId s; m_audioCfgTemplate := v;
     m_sampleRate := m_sampleRate s; m_cutOff := m_cutOff s;
     m_volume := m_volume s; m_squelch := m_squelch s;
     m_squelchLevel := m_squelchLevel s; m_demod := m_demod s;
     m_lo := m_lo s; m_correctionEnabled := m_correctionEnabled s;
     m_orbit := m_orbit s |}.

Definition set_m_sampleRate (v : Z) (s : State) : State :=
  {| m_analyzer := m_analyzer s; m_playBack := m_playBack s;
     m_tracker := m_tracker s; m_enabled := m_enabled s;
     m_opening := m_opening s; m_opened := m_opened s;
     m_settingRate := m_settingRate s;
     m_audioInspectorOpened := m_audioInspectorOpened s;
     m_audioInspHandle := m_audioInspHandle s;
     m_audioInspId := m_audioInspId s;
     m_audioCfgTemplate := m_audioCfgTemplate s; m_sampleRate := v;
     m_cutOff := m_cutOff s; m_volume := m_volume s;
     m_squelch := m_squelch s; m_squelchLevel := m_squelchLevel s;
     m_demod := m_demod s; m_lo := m_lo s;
     m_correctionEnabled := m_correctionEnabled s; m_orbit := m_orbit s |}.

Definition set_m_cutOff (v : Q) (s : State) : State :=
  {| m_analyzer := m_analyzer s; m_playBack := m_playBack s;
     m_tracker := m_tracker s; m_enabled := m_enabled s;
     m_opening := m_opening s; m_opened := m_opened s;
     m_settingRate := m_settingRate s;
     m_audioInspectorOpened := m_audioInspectorOpened s;
     m_audioInspHandle := m_audioInspHandle s;
     m_audioInspId := m_audioInspId s;
     m_audioCfgTemplate := m_audioCfgTemplate s;
     m_sampleRate := m_sampleRate s; m_cutOff := v; m_volume := m_volume s;
     m_squelch := m_squelch s; m_squelchLevel := m_squelchLevel s;
     m_demod := m_demod s; m_lo := m_lo s;
     m_correctionEnabled := m_correctionEnabled s; m_orbit := m_orbit s |}.

Definition set_m_volume (v : Q) (s : State) : State :=
  {| m_analyzer := m_analyzer s; m_playBack := m_playBack s;
     m_tracker := m_tracker s; m_enabled := m_enabled s;
     m_opening := m_opening s; m_opened := m_opened s;
     m_settingRate := m_settingRate s;
     m_audioInspectorOpened := m_audioInspectorOpened s;
     m_audioInspHandle := m_audioInspHandle s;
     m_audioInspId := m_audioInspId s;
     m_audioCfgTemplate := m_audioCfgTemplate s;
     m_sampleRate := m_sampleRate s; m_cutOff := m_cutOff s; m_volume := v;
     m_squelch := m_squelch s; m_squelchLevel := m_squelchLevel s;
     m_demod := m_demod s; m_lo := m_lo s;
     m_correctionEnabled := m_correctionEnabled s; m_orbit := m_orbit s |}.

Definition set_m_squelch (v : bool) (s : State) : State :=
  {| m_analyzer := m_analyzer s; m_playBack := m_playBack s;
     m_tracker := m_tracker s; m_enabled := m_enabled s;
     m_opening := m_opening s; m_opened := m_opened s;
     m_settingRate := m_settingRate s;
     m_audioInspectorOpened := m_audioInspectorOpened s;
     m_audioInspHandle := m_audioInspHandle s;
     m_audioInspId := m_audioInspId s;
     m_audioCfgTemplate := m_audioCfgTemplate s;
     m_sampleRate := m_sampleRate s; m_cutOff := m_cutOff s;
     m_volume := m_volume s; m_squelch := v;
     m_squelchLevel := m_squelchLevel s; m_demod := m_demod s;
     m_lo := m_lo s; m_correctionEnabled := m_correctionEnabled s;
     m_orbit := m_orbit s |}.

Definition set_m_squelchLevel (v : Q) (s : State) : State :=
  {| m_analyzer := m_analyzer s; m_playBack := m_playBack s;
     m_tracker := m_tracker s; m_enabled := m_enabled s;
     m_opening := m_opening s; m_opened := m_opened s;
     m_settingRate := m_settingRate s;
     m_audioInspectorOpened := m_audioInspectorOpened s;
     m_audioInspHandle := m_audioInspHandle s;
     m_audioInspId := m_audioInspId s;
     m_audioCfgTemplate := m_audioCfgTemplate s;
     m_sampleRate := m_sampleRate s; m_cutOff := m_cutOff s;
     m_volume := m_volume s; m_squelch := m_squelch s; m_squelchLevel := v;
     m_demod := m_demod s; m_lo := m_lo s;
     m_correctionEnabled := m_correctionEnabled s; m_orbit := m_orbit s |}.

Definition set_m_demod (v : AudioDemod) (s : State) : State :=
  {| m_analyzer := m_analyzer s; m_playBack := m_playBack s;
     m_tracker := m_tracker s; m_enabled := m_enabled s;
     m_opening := m_opening s; m_opened := m_opened s;
     m_settingRate := m_settingRate s;
     m_audioInspectorOpened := m_audioInspectorOpened s;
     m_audioInspHandle := m_audioInspHandle s;
     m_audioInspId := m_audioInspId s;
     m_audioCfgTemplate := m_audioCfgTemplate s;
     m_sampleRate := m_sampleRate s; m_cutOff := m_cutOff s;
     m_volume := m_volume s; m_squelch := m_squelch s;
     m_squelchLevel := m_squelchLevel s; m_demod := v; m_lo := m_lo s;
     m_correctionEnabled := m_correctionEnabled s; m_orbit := m_orbit s |}.

Definition set_m_lo (v : Q) (s : State) : State :=
  {| m_analyzer := m_analyzer s; m_playBack := m_playBack s;
     m_tracker := m_tracker s; m_enabled := m_enabled s;
     m_opening := m_opening s; m_opened := m_opened s;
     m_settingRate := m_settingRate s;
     m_audioInspectorOpened := m_audioInspectorOpened s;
     m_audioInspHandle := m_audioInspHandle s;
     m_audioInspId := m_audioInspId s;
     m_audioCfgTemplate := m_audioCfgTemplate s;
     m_sampleRate := m_sampleRate s; m_cutOff := m_cutOff s;
     m_volume := m_volume s; m_squelch := m_squelch s;
     m_squelchLevel := m_squelchLevel s; m_demod := m_demod s; m_lo := v;
     m_correctionEnabled := m_correctionEnabled s; m_orbit := m_orbit s |}.

Definition set_m_correctionEnabled (v : bool) (s : State) : State :=
  {| m_analyzer := m_analyzer s; m_playBack := m_playBack s;
     m_tracker := m_tracker s; m_enabled := m_enabled s;
     m_opening := m_opening s; m_opened := m_opened s;
     m_settingRate := m_settingRate s;
     m_audioInspectorOpened := m_audioInspectorOpened s;
     m_audioInspHandle := m_audioInspHandle s;
     m_audioInspId := m_audioInspId s;
     m_audioCfgTemplate := m_audioCfgTemplate s;
     m_sampleRate := m_sampleRate s; m_cutOff := m_cutOff s;
     m_volume := m_volume s; m_squelch := m_squelch s;
     m_squelchLevel := m_squelchLevel s; m_demod := m_demod s;
     m_lo := m_lo s; m_correctionEnabled := v; m_orbit := m_orbit s |}.

Definition set_m_orbit (v : Orbit) (s : State) : State :=
  {| m_analyzer := m_analyzer s; m_playBack := m_playBack s;
     m_tracker := m_tracker s; m_enabled := m_enabled s;
     m_opening := m_opening s; m_opened := m_opened s;
     m_settingRate := m_settingRate s;
     m_audioInspectorOpened := m_audioInspectorOpened s;
     m_audioInspHandle := m_audioInspHandle s;
     m_audioInspId := m_audioInspId s;
     m_audioCfgTemplate := m_audioCfgTemplate s;
     m_sampleRate := m_sampleRate s; m_cutOff := m_cutOff s;
     m_volume := m_volume s; m_squelch := m_squelch s;
     m_squelchLevel := m_squelchLevel s; m_demod := m_demod s;
     m_lo := m_lo s; m_correctionEnabled := m_correctionEnabled s;
     m_orbit := v |}.

(** ** Runs: state, effect log, abnormal termination *)

Inductive Fault := AssertionFailed | NullPointer | MissingReturn.

Inductive Res (A : Type) :=
| Ret (a : A) (s : State) (log : list Effect)
| Abort (f : Fault) (log : list Effect).

Arguments Ret {A} a s log.
Arguments Abort {A} f log.

Definition M (A : Type) : Type := State → Res A.

#[global] Instance M_ret : MRet M := λ A a s, Ret a s [].

#[global] Instance M_bind : MBind M := λ A B f m s,
  match m s with
  | Ret a s' l =>
      match f a s' with
      | Ret b s'' l' => Ret b s'' (l ++ l')
      | Abort ft l' => Abort ft (l ++ l')
      end
  | Abort ft l => Abort ft l
  end.

Definition gets {A : Type} (f : State → A) : M A := λ s, Ret (f s) s [].

Definition modify (f : State → State) : M unit := λ s, Ret tt (f s) [].

Definition emit (e : Effect) : M unit := λ s, Ret tt s [e].

Definition abort {A : Type} (f : Fault) : M A := λ _, Abort f [].

(** [assert (cond)]. *)
Definition assert (cond : bool) : M unit :=
  if cond then mret tt else abort AssertionFailed.

(** [if (cond) body]. *)
Definition when (cond : bool) (body : M unit) : M unit :=
  if cond then body else mret tt.

(** [m_playBack->call (...)]. *)
Definition playBack (call : Effect) : M unit :=
  p ← gets m_playBack;
  if p : bool then emit call else abort NullPointer.

(** [m_tracker->call (...)]. *)
Definition tracker (call : Effect) : M unit :=
  p ← gets m_tracker;
  if p : bool then emit call else abort NullPointer.

(** [m_analyzer->call (...)]. *)
Definition analyzer (call : Effect) : M unit :=
  a ← gets m_analyzer;
  match a with
  | Some _ => emit call
  | None => abort NullPointer
  end.

(** [assert (m_analyzer != nullptr)], handing back the analyzer. *)
Definition assert_analyzer : M Analyzer :=
  a ← gets m_analyzer;
  match a with
  | Some an => mret an
  | None => abort AssertionFailed
  end.

(** The log of a run. *)
Definition log_of {A : Type} (r : Res A) : list Effect :=
  match r with
  | Ret _ _ l => l
  | Abort _ l => l
  end.

(** ** sigutils *)

(** Modelled from the spec: the macro [sufeq (a, b, tol)] of sigutils (not
    among the sources): [a] and [b] differ by at most [tol]. *)
Definition sufeq (a b tol : Q) : bool := Qle_bool (Qabs (a - b)) tol.

(** [a > b] on [SUFREQ] values. *)
Definition Qgtb (a b : Q) : bool := negb (Qle_bool a b).

(** ** The controller *)

(** What the collaborators answer during one call of the controller:
    the result of [m_tracker->requestOpen ("audio", ch)] and the rate
    [m_playBack->getSampleRate ()] reports once [rate] has been asked for. *)
Record Env := {
  requestOpen : Channel → bool;
  playback_getSampleRate : Z → Z
}.

(** [AudioProcessor::setParams]. *)
Definition setParams_config (tmpl : Config) (s : State) : Config :=
  let cfg := tmpl in                                  (* cfg (m_audioCfgTemplate) *)
  let cfg := <["audio.cutoff" := FFloat (m_cutOff s)]> cfg in
  let cfg := <["audio.volume" := FFloat 1%Q]> cfg in
  let cfg := <["audio.sample-rate" := FInt (m_sampleRate s)]> cfg in
  let cfg := <["audio.demodulator" := FInt (m_sampleRate s)]> cfg in
  let cfg := <["audio.squelch" := FBool (m_squelch s)]> cfg in
  let cfg := <["audio.squelch-level" := FFloat (m_squelchLevel s)]> cfg in
  cfg.

Definition setParams : M unit :=
  tmpl ← gets m_audioCfgTemplate;
  match tmpl with
  | None => abort AssertionFailed      (* assert (m_audioCfgTemplate != nullptr) *)
  | Some tmpl =>
      _ ← assert_analyzer;
      opened ← gets m_audioInspectorOpened;
      assert opened;;
      cfg ← gets (setParams_config tmpl);
      h ← gets m_audioInspHandle;
      analyzer (AnalyzerSetInspectorConfig h cfg)
  end.

(** The statements of [AudioProcessor::closeAudio], from the assertion to
    the last assignment. *)
Definition closeAudio_body : M unit :=
  _ ← assert_analyzer;
  opening ← gets m_opening;
  opened ← gets m_opened;
  when (opening || opened) (
    inspOpened ← gets m_audioInspectorOpened;
    h ← gets m_audioInspHandle;
    when inspOpened (analyzer (AnalyzerCloseInspector h));;
    when (negb opened) (tracker TrackerCancelAll);;
    playBack PlaybackStop);;
  modify (set_m_opening false);;
  modify (set_m_opened false);;
  modify (set_m_audioInspectorOpened false).

(** [AudioProcessor::closeAudio].  The function is declared [bool] and has
    no [return] statement: after its last assignment control flows off the
    end of a value-returning function, which is undefined behaviour.  The
    run stops there. *)
Definition closeAudio : M unit :=
  closeAudio_body;;
  abort MissingReturn.

Section OpenAudio.

(** The macro [SIGDIGGER_AUDIO_INSPECTOR_BANDWIDTH] of AudioProcessor.h. *)
Variable SIGDIGGER_AUDIO_INSPECTOR_BANDWIDTH : Q.

(** [maxFc = SCAST (SUFREQ, m_analyzer->getSampleRate () / 2)]: the
    division is the integer one. *)
Definition openAudio_maxFc (an : Analyzer) : Q :=
  inject_Z (getSampleRate an / 2).

(** [bw] after [if (bw > maxFc) bw = maxFc]. *)
Definition openAudio_bw (maxFc : Q) : Q :=
  let bw := SIGDIGGER_AUDIO_INSPECTOR_BANDWIDTH in
  if Qgtb bw maxFc then maxFc else bw.

(** The "Prepare channel" block of [openAudio]. *)
Definition openAudio_channel (maxFc lo : Q) : Channel :=
  let bw := openAudio_bw maxFc in
  let fc := lo in
  let fLow := (- (1 # 2) * bw)%Q in
  let fHigh := ((1 # 2) * bw)%Q in
  let fc := if Qgtb fc maxFc || Qgtb (- maxFc) fc then 0%Q else fc in
  {| ch_bw := bw; ch_ft := 0%Q; ch_fc := fc;
     ch_fLow := fLow; ch_fHigh := fHigh |}.

(** [reqRate] after [if (reqRate > bw) reqRate = floor (bw)]. *)
Definition openAudio_reqRate (sampleRate : Z) : Z :=
  let bw := SIGDIGGER_AUDIO_INSPECTOR_BANDWIDTH in
  if Qgtb (inject_Z sampleRate) bw then Qfloor bw else sampleRate.

(** [AudioProcessor::openAudio]. *)
Definition openAudio (env : Env) : M bool :=
  an ← assert_analyzer;
  opening0 ← gets m_opening;
  if opening0 : bool then mret true
  else
    opened0 ← gets m_opened;
    if opened0 : bool then mret false
    else
      pb ← gets m_playBack;
      opening ← (if pb : bool then
           let maxFc := openAudio_maxFc an in
           sampleRate ← gets m_sampleRate;
           let reqRate := openAudio_reqRate sampleRate in
           volume ← gets m_volume;
           playBack (PlaybackSetVolume volume);;
           playBack (PlaybackSetSampleRate reqRate);;
           playBack PlaybackStart;;
           modify (set_m_sampleRate (playback_getSampleRate env reqRate));;
           lo ← gets m_lo;
           let ch := openAudio_channel maxFc lo in
           tracker (TrackerRequestOpen "audio" ch);;
           let opening := requestOpen env ch in
           when (negb opening) (
             emit (EmitAudioError
               "Internal Suscan error while opening audio inspector");;
             playBack PlaybackStop);;
           mret opening
         else
           emit (EmitAudioError
             "Cannot enable audio, playback support failed to start");;
           mret false);
      modify (set_m_opening opening);;
      mret opening.

(** [AudioProcessor::setAnalyzer]. *)
Definition setAnalyzer (env : Env) (a : option Analyzer) : M unit :=
  old ← gets m_analyzer;
  when (bool_decide (is_Some old)) (
    analyzer AnalyzerDisconnect;;        (* disconnectAnalyzer () *)
    closeAudio);;
  modify (set_m_analyzer a);;
  tracker (TrackerSetAnalyzer a);;
  enabled ← gets m_enabled;
  when (bool_decide (is_Some a) && enabled) (_ ← openAudio env; mret tt).

(** [AudioProcessor::setEnabled]. *)
Definition setEnabled (env : Env) (enabled : bool) : M unit :=
  cur ← gets m_enabled;
  when (negb (eqb cur enabled)) (
    modify (set_m_enabled enabled);;
    opened ← gets m_opened;
    opening ← gets m_opening;
    if enabled then
      when (negb opened && negb opening) (_ ← openAudio env; mret tt)
    else
      when (opened || opening) closeAudio).

End OpenAudio.

(** [AudioProcessor::setSquelchEnabled]. *)
Definition setSquelchEnabled (enabled : bool) : M unit :=
  cur ← gets m_squelch;
  when (negb (eqb cur enabled)) (
    modify (set_m_squelch enabled);;
    inspOpened ← gets m_audioInspectorOpened;
    when inspOpened setParams).

(** [AudioProcessor::setSquelchLevel]. *)
Definition setSquelchLevel (level : Q) : M unit :=
  cur ← gets m_squelchLevel;
  when (negb (sufeq cur level (1 # 100000000))) (
    modify (set_m_squelchLevel level);;
    inspOpened ← gets m_audioInspectorOpened;
    when inspOpened setParams).

(** [AudioProcessor::setVolume]. *)
Definition setVolume (volume : Q) : M unit :=
  cur ← gets m_volume;
  when (negb (sufeq cur volume (1 # 10))) (
    modify (set_m_volume volume);;
    inspOpened ← gets m_audioInspectorOpened;
    when inspOpened setParams).

(** Equality of [AudioDemod] values. *)
Definition AudioDemod_eqb (a b : AudioDemod) : bool :=
  match a, b with
  | AM, AM | FM, FM | USB, USB | LSB, LSB => true
  | _, _ => false
  end.

(** [AudioProcessor::setDemod]. *)
Definition setDemod (demod : AudioDemod) : M unit :=
  cur ← gets m_demod;
  when (negb (AudioDemod_eqb cur demod)) (
    modify (set_m_demod demod);;
    inspOpened ← gets m_audioInspectorOpened;
    when inspOpened setParams).

(** [AudioProcessor::setCutOff]. *)
Definition setCutOff (cutOff : Q) : M unit :=
  cur ← gets m_cutOff;
  when (negb (sufeq cur cutOff (1 # 100000000))) (
    modify (set_m_cutOff cutOff);;
    inspOpened ← gets m_audioInspectorOpened;
    when inspOpened setParams).

(** [AudioProcessor::setSampleRate]. *)
Definition setSampleRate (rate : Z) : M unit :=
  cur ← gets m_sampleRate;
  when (negb (cur =? rate)%Z) (
    modify (set_m_sampleRate rate);;
    playBack (PlaybackSetSampleRate rate);;
    inspOpened ← gets m_audioInspectorOpened;
    when inspOpened (
      modify (set_m_settingRate true);;
      setParams)).

(** [AudioProcessor::setDemodFreq]. *)
Definition setDemodFreq (lo : Q) : M unit :=
  cur ← gets m_lo;
  when (negb (sufeq cur lo (1 # 100000000))) (
    modify (set_m_lo lo);;
    inspOpened ← gets m_audioInspectorOpened;
    h ← gets m_audioInspHandle;
    when inspOpened (analyzer (AnalyzerSetInspectorFreq h lo))).

(** [AudioProcessor::setAudioCorrection]. *)
Definition setAudioCorrection (orbit : Orbit) : M unit :=
  modify (set_m_orbit orbit);;
  enabled ← gets m_correctionEnabled;
  inspOpened ← gets m_audioInspectorOpened;
  h ← gets m_audioInspHandle;
  when (enabled && inspOpened)
    (analyzer (AnalyzerSetInspectorDopplerCorrection h orbit)).

(** [AudioProcessor::setCorrectionEnabled]. *)
Definition setCorrectionEnabled (enabled : bool) : M unit :=
  cur ← gets m_correctionEnabled;
  when (negb (eqb cur enabled)) (
    modify (set_m_correctionEnabled enabled);;
    inspOpened ← gets m_audioInspectorOpened;
    h ← gets m_audioInspHandle;
    orbit ← gets m_orbit;
    when (enabled && inspOpened)
      (analyzer (AnalyzerSetInspectorDopplerCorrection h orbit))).

(** The rate check of [onInspectorMessage], run while [m_settingRate]. *)
Definition rate_acknowledged (sampleRate : Z) (cfg : Config) : bool :=
  match suscan_config_get_value cfg "audio.sample-rate" with
  | Some value =>
      match as_int value with
      | Some n => (sampleRate =? n)%Z        (* m_sampleRate == value->as_int *)
      | None => false
      end
  | None => true    (* "just in case the server is not behaving as expected" *)
  end.

(** [AudioProcessor::onInspectorMessage]. *)
Definition onInspectorMessage (msg : InspectorMessage) : M unit :=
  inspOpened ← gets m_audioInspectorOpened;
  inspId ← gets m_audioInspId;
  when (inspOpened && (msg_getInspectorId msg =? inspId)%Z) (
    match msg_getKind msg with
    | SUSCAN_ANALYZER_INSPECTOR_MSGKIND_SET_CONFIG =>
        opened ← gets m_opened;
        when (negb opened) (
          modify (set_m_opened true);;
          emit EmitAudioOpened);;
        settingRate ← gets m_settingRate;
        sampleRate ← gets m_sampleRate;
        when settingRate (
          when (rate_acknowledged sampleRate (msg_getCConfig msg))
            (modify (set_m_settingRate false)))
    | SUSCAN_ANALYZER_INSPECTOR_MSGKIND_WRONG_KIND
    | SUSCAN_ANALYZER_INSPECTOR_MSGKIND_WRONG_OBJECT
    | SUSCAN_ANALYZER_INSPECTOR_MSGKIND_WRONG_HANDLE =>
        opened ← gets m_opened;
        when (negb opened) (
          closeAudio;;
          emit (EmitAudioError "Unexpected error while opening audio channel"))
    | SUSCAN_ANALYZER_INSPECTOR_MSGKIND_OTHER => mret tt
    end).

(** [AudioProcessor::onInspectorSamples]. *)
Definition onInspectorSamples (msg : SamplesMessage) : M unit :=
  opened ← gets m_opened;
  inspId ← gets m_audioInspId;
  when (opened && (smp_getInspectorId msg =? inspId)%Z) (
    let samples := smp_getSamples msg in
    let count := smp_getCount msg in
    settingRate ← gets m_settingRate;
    let samples :=
      if settingRate : bool then replicate count SUCOMPLEX_zero   (* silence *)
      else samples in
    playBack (PlaybackWrite samples count)).

(** [AudioProcessor::onOpened].  [alloc_ok] tells whether the allocation
    inside [suscan_config_dup] succeeds. *)
Definition onOpened (alloc_ok : bool) (req : AnalyzerRequest) (config : Config)
  : M unit :=
  modify (set_m_opening false);;
  a ← gets m_analyzer;
  when (bool_decide (is_Some a)) (
    tmpl ← gets m_audioCfgTemplate;
    cloned ← (if bool_decide (is_Some tmpl) then
         (* suscan_config_destroy (m_audioCfgTemplate) *)
         modify (set_m_audioCfgTemplate (suscan_config_dup alloc_ok config));;
         gets (λ s, bool_decide (is_Some (m_audioCfgTemplate s)))
       else mret true);
    if cloned : bool then
      modify (set_m_audioInspHandle (req_handle req));;
      modify (set_m_audioInspId (req_inspectorId req));;
      modify (set_m_audioInspectorOpened true);;
      setParams;;
      correction ← gets m_correctionEnabled;
      h ← gets m_audioInspHandle;
      orbit ← gets m_orbit;
      when correction (analyzer (AnalyzerSetInspectorDopplerCorrection h orbit))
    else
      analyzer (AnalyzerCloseInspector (req_handle req));;
      emit (EmitAudioError "Failed to duplicate audio configuration")).

(** [AudioProcessor::onCancelled]. *)
Definition onCancelled (req : AnalyzerRequest) : M unit :=
  modify (set_m_opening false);;
  playBack PlaybackStop.

(** [AudioProcessor::onError]. *)
Definition onError (req : AnalyzerRequest) (err : string) : M unit :=
  modify (set_m_opening false);;
  playBack PlaybackStop;;
  emit (EmitAudioError ("Failed to open audio channel: " +:+ err)).

(** ** Concrete states and messages used in examples *)

(** A template as an audio inspector supplies it. *)
Definition template0 : Config :=
  <["audio.cutoff" := FFloat 0%Q]>
  (<["audio.volume" := FFloat 0%Q]>
  (<["audio.sample-rate" := FInt 0]>
  (<["audio.demodulator" := FInt 0]>
  (<["audio.squelch" := FBool false]>
  (<["audio.squelch-level" := FFloat 0%Q]> ∅))))).

(** Disabled, nothing open, analyzer bound at 250000 samples per second. *)
Definition idle0 : State :=
  {| m_analyzer := Some {| getSampleRate := 250000 |};
     m_playBack := true; m_tracker := true;
     m_enabled := false; m_opening := false; m_opened := false;
     m_settingRate := false; m_audioInspectorOpened := false;
     m_audioInspHandle := 0; m_audioInspId := 0;
     m_audioCfgTemplate := Some template0;
     m_sampleRate := 44100; m_cutOff := 15000%Q; m_volume := (1 # 2)%Q;
     m_squelch := false; m_squelchLevel := (1 # 10)%Q; m_demod := FM;
     m_lo := 0%Q; m_correctionEnabled := false;
     m_orbit := OrbitData 0 |}.

(** Enabled, open request sent. *)
Definition requesting0 : State := set_m_opening true (set_m_enabled true idle0).

(** Enabled, inspector 7 (handle 3) acquired, first configuration in flight. *)
Definition configuring0 : State :=
  set_m_audioInspectorOpened true
    (set_m_audioInspId 7 (set_m_audioInspHandle 3 (set_m_enabled true idle0))).

(** Enabled, configuration acknowledged. *)
Definition streaming0 : State := set_m_opened true configuring0.

(** A collaborator that accepts every open request and grants every rate. *)
Definition env_ok : Env :=
  {| requestOpen := λ _, true; playback_getSampleRate := λ r, r |}.

Definition req0 : AnalyzerRequest := {| req_handle := 3; req_inspectorId := 7 |}.

(** Streaming, sample-rate change to 44100 requested and not yet confirmed. *)
Definition rate_transition0 : State := set_m_settingRate true streaming0.

(** A configuration acknowledgement for inspector 7 carrying [cfg]. *)
Definition ack0 (cfg : Config) : InspectorMessage :=
  {| msg_getInspectorId := 7;
     msg_getKind := SUSCAN_ANALYZER_INSPECTOR_MSGKIND_SET_CONFIG;
     msg_getCConfig := cfg |}.

(** A batch of three samples for inspector 7. *)
Definition batch0 : SamplesMessage :=
  {| smp_getInspectorId := 7;
     smp_getSamples := [(1 # 2, 0); (- (1 # 4), 1 # 8); (0, 1)]%Q |}.


(** The analyzer bound in [idle0]. *)
Definition analyzer0 : Analyzer := {| getSampleRate := 250000 |}.

(** ** Derived notions used in the statements *)

(** The fields a configuration write is expected to carry. *)
Definition recognized_fields : list string :=
  ["audio.cutoff"; "audio.volume"; "audio.sample-rate"; "audio.demodulator";
   "audio.squelch"; "audio.squelch-level"].

(** Number of log entries satisfying [p]. *)
Fixpoint count (p : Effect → bool) (log : list Effect) : nat :=
  match log with
  | [] => 0%nat
  | e :: log => ((if p e then 1 else 0) + count p log)%nat
  end.

Definition is_audioOpened (e : Effect) : bool :=
  match e with EmitAudioOpened => true | _ => false end.

Definition is_audioError (e : Effect) : bool :=
  match e with EmitAudioError _ => true | _ => false end.

Definition is_requestOpen (e : Effect) : bool :=
  match e with TrackerRequestOpen _ _ => true | _ => false end.

Definition is_playbackSetVolume (e : Effect) : bool :=
  match e with PlaybackSetVolume _ => true | _ => false end.

(** Inspector messages delivered one after the other. *)
Fixpoint deliver (msgs : list InspectorMessage) : M unit :=
  match msgs with
  | [] => mret tt
  | msg :: msgs => onInspectorMessage msg;; deliver msgs
  end.

(** The "wrong state" kinds. *)
Definition is_wrong_kind (k : MsgKind) : bool :=
  match k with
  | SUSCAN_ANALYZER_INSPECTOR_MSGKIND_WRONG_KIND
  | SUSCAN_ANALYZER_INSPECTOR_MSGKIND_WRONG_OBJECT
  | SUSCAN_ANALYZER_INSPECTOR_MSGKIND_WRONG_HANDLE => true
  | _ => false
  end.

(** The parameter setters that go through [setParams]. *)
Inductive Setter :=
| SetCutOff (cutOff : Q)
| SetSquelchEnabled (enabled : bool)
| SetSquelchLevel (level : Q)
| SetVolume (volume : Q)
| SetDemod (demod : AudioDemod).

Definition run_setter (c : Setter) : M unit :=
  match c with
  | SetCutOff cutOff => setCutOff cutOff
  | SetSquelchEnabled enabled => setSquelchEnabled enabled
  | SetSquelchLevel level => setSquelchLevel level
  | SetVolume volume => setVolume volume
  | SetDemod demod => setDemod demod
  end.

(** The argument of the setter differs from the cached value: exactly for
    flags and modes, beyond the tolerance of the setter for numbers. *)
Definition setter_differs (c : Setter) (s : State) : Prop :=
  match c with
  | SetCutOff cutOff => ¬ (Qabs (m_cutOff s - cutOff) <= 1 # 100000000)%Q
  | SetSquelchEnabled enabled => m_squelch s ≠ enabled
  | SetSquelchLevel level =>
      ¬ (Qabs (m_squelchLevel s - level) <= 1 # 100000000)%Q
  | SetVolume volume => ¬ (Qabs (m_volume s - volume) <= 1 # 10)%Q
  | SetDemod demod => m_demod s ≠ demod
  end.

(** The state with the argument of the setter cached. *)
Definition setter_cached (c : Setter) (s : State) : State :=
  match c with
  | SetCutOff cutOff => set_m_cutOff cutOff s
  | SetSquelchEnabled enabled => set_m_squelch enabled s
  | SetSquelchLevel level => set_m_squelchLevel level s
  | SetVolume volume => set_m_volume volume s
  | SetDemod demod => set_m_demod demod s
  end.

(** The test at the head of the setter, as the code writes it. *)
Definition setter_guard (c : Setter) (s : State) : bool :=
  match c with
  | SetCutOff cutOff => negb (sufeq (m_cutOff s) cutOff (1 # 100000000))
  | SetSquelchEnabled enabled => negb (eqb (m_squelch s) enabled)
  | SetSquelchLevel level =>
      negb (sufeq (m_squelchLevel s) level (1 # 100000000))
  | SetVolume volume => negb (sufeq (m_volume s) volume (1 # 10))
  | SetDemod demod => negb (AudioDemod_eqb (m_demod s) demod)
  end.

(** The public methods and slots of the controller. *)
Inductive Call :=
| CallOpenAudio
| CallCloseAudio
| CallSetAnalyzer (a : option Analyzer)
| CallSetEnabled (enabled : bool)
| CallSetSquelchEnabled (enabled : bool)
| CallSetSquelchLevel (level : Q)
| CallSetVolume (volume : Q)
| CallSetAudioCorrection (orbit : Orbit)
| CallSetCorrectionEnabled (enabled : bool)
| CallSetDemod (demod : AudioDemod)
| CallSetSampleRate (rate : Z)
| CallSetCutOff (cutOff : Q)
| CallSetDemodFreq (lo : Q)
| CallOnInspectorMessage (msg : InspectorMessage)
| CallOnInspectorSamples (msg : SamplesMessage)
| CallOnOpened (alloc_ok : bool) (req : AnalyzerRequest) (config : Config)
| CallOnCancelled (req : AnalyzerRequest)
| CallOnError (req : AnalyzerRequest) (err : string).

Definition call (bandwidth : Q) (env : Env) (c : Call) : M unit :=
  match c with
  | CallOpenAudio => _ ← openAudio bandwidth env; mret tt
  | CallCloseAudio => closeAudio
  | CallSetAnalyzer a => setAnalyzer bandwidth env a
  | CallSetEnabled enabled => setEnabled bandwidth env enabled
  | CallSetSquelchEnabled enabled => setSquelchEnabled enabled
  | CallSetSquelchLevel level => setSquelchLevel level
  | CallSetVolume volume => setVolume volume
  | CallSetAudioCorrection orbit => setAudioCorrection orbit
  | CallSetCorrectionEnabled enabled => setCorrectionEnabled enabled
  | CallSetDemod demod => setDemod demod
  | CallSetSampleRate rate => setSampleRate rate
  | CallSetCutOff cutOff => setCutOff cutOff
  | CallSetDemodFreq lo => setDemodFreq lo
  | CallOnInspectorMessage msg => onInspectorMessage msg
  | CallOnInspectorSamples msg => onInspectorSamples msg
  | CallOnOpened alloc_ok req config => onOpened alloc_ok req config
  | CallOnCancelled req => onCancelled req
  | CallOnError req err => onError req err
  end.

(** The calls whose body can reach [openAudio]. *)
Definition reaches_openAudio (c : Call) : bool :=
  match c with
  | CallOpenAudio | CallSetAnalyzer (Some _) | CallSetEnabled true => true
  | _ => false
  end.



(** An analyzer with an odd sample rate, and a tuning offset of exactly
    half that rate. *)
Definition odd_rate0 : State :=
  set_m_lo (250001 # 2)%Q
    (set_m_analyzer (Some {| getSampleRate := 250001 |}) idle0).

(** ** Further notions about the controller *)

(** Calls made one after the other, each with the answers its
    collaborators give. *)
Fixpoint run_calls (bandwidth : Q) (cs : list (Env * Call)) : M unit :=
  match cs with
  | [] => mret tt
  | (env, c) :: cs => call bandwidth env c;; run_calls bandwidth cs
  end.

(** Samples are forwarded only while an inspector is held. *)
Definition opened_holds_inspector (s : State) : Prop :=
  m_opened s = true → m_audioInspectorOpened s = true.

(** A configuration, frequency or Doppler update addressed to the inspector
    that [s] holds open. *)
Definition targets_open_inspector (s : State) (e : Effect) : Prop :=
  match e with
  | AnalyzerSetInspectorConfig h _
  | AnalyzerSetInspectorFreq h _
  | AnalyzerSetInspectorDopplerCorrection h _ =>
      m_audioInspectorOpened s = true ∧ h = m_audioInspHandle s
  | _ => True
  end.

(** A configuration write whose cutoff, volume, sample rate and squelch
    fields are the values cached in [s]. *)
Definition mirrors_cache (s : State) (e : Effect) : Prop :=
  match e with
  | AnalyzerSetInspectorConfig _ cfg =>
      cfg !! "audio.cutoff" = Some (FFloat (m_cutOff s))
      ∧ cfg !! "audio.volume" = Some (FFloat 1%Q)
      ∧ cfg !! "audio.sample-rate" = Some (FInt (m_sampleRate s))
      ∧ cfg !! "audio.squelch" = Some (FBool (m_squelch s))
      ∧ cfg !! "audio.squelch-level" = Some (FFloat (m_squelchLevel s))
  | _ => True
  end.


(** Disable and enable again before the first acknowledgement, which then
    arrives. *)
Definition reenable_while_configuring (bandwidth : Q) (env : Env)
    (ack : InspectorMessage) : M unit :=
  setEnabled bandwidth env false;;
  setEnabled bandwidth env true;;
  onInspectorMessage ack.

(** A wrong-handle message for inspector 7. *)
Definition wrong0 : InspectorMessage :=
  {| msg_getInspectorId := 7;
     msg_getKind := SUSCAN_ANALYZER_INSPECTOR_MSGKIND_WRONG_HANDLE;
     msg_getCConfig := ∅ |}.

(** ** SigDiggerHelpers.cpp: palettes *)

(** Modelled from the spec: [class Palette] (Palette.h is not among the
    sources), as far as SigDiggerHelpers looks at it: its name and its
    table of colours. *)
Record Palette := {
  getName : string;
  getGradient : list (Q * Q * Q)
}.

(** The loop of [SigDiggerHelpers::getPaletteIndex], from position [i];
    [-1] when it runs off the end. *)
Fixpoint getPaletteIndex_from (i : Z) (palettes : list Palette)
    (name : string) : Z :=
  match palettes with
  | [] => -1
  | p :: palettes =>
      if String.eqb (getName p) name then i
      else getPaletteIndex_from (i + 1) palettes name
  end.

(** [SigDiggerHelpers::getPaletteIndex]. *)
Definition getPaletteIndex (palettes : list Palette) (name : string) : Z :=
  getPaletteIndex_from 0 palettes name.

(** [SigDiggerHelpers::getPalette (int)]: null when out of range. *)
Definition getPalette (palettes : list Palette) (index : Z)
  : option Palette :=
  if ((index <? 0) || (index >=? Z.of_nat (length palettes)))%Z then None
  else palettes !! Z.to_nat index.

(** [SigDiggerHelpers::getPalette (std::string const &)]. *)
Definition getPalette_by_name (palettes : list Palette) (name : string)
  : option Palette :=
  let index := getPaletteIndex palettes name in
  if (index >=? 0)%Z then palettes !! Z.to_nat index else None.

(** The colour [getGqrxPalette] stores at index [i]: the [int] arithmetic
    of the source, then the division by [255.]. *)
Definition getGqrxPalette_color (i : Z) : Q * Q * Q :=
  if (i <? 20)%Z then (0, 0, 0)%Q
  else if ((i >=? 20) && (i <? 70))%Z then
    (0, 0, inject_Z (140 * (i - 20) ÷ 50) / 255)%Q
  else if ((i >=? 70) && (i <? 100))%Z then
    (inject_Z (60 * (i - 70) ÷ 30) / 255,
     inject_Z (125 * (i - 70) ÷ 30) / 255,
     inject_Z (115 * (i - 70) ÷ 30 + 140) / 255)%Q
  else if ((i >=? 100) && (i <? 150))%Z then
    (inject_Z (195 * (i - 100) ÷ 50 + 60) / 255,
     inject_Z (130 * (i - 100) ÷ 50 + 125) / 255,
     inject_Z (255 - (255 * (i - 100) ÷ 50)) / 255)%Q
  else if ((i >=? 150) && (i <? 250))%Z then
    (1, inject_Z (255 - 255 * (i - 150) ÷ 100) / 255, 0)%Q
  else if (i >=? 250)%Z then
    (1, inject_Z (255 * (i - 250) ÷ 5) / 255,
     inject_Z (255 * (i - 250) ÷ 5) / 255)%Q
  else (0, 0, 0)%Q.

(** The table [color[256][3]] filled by the loop of [getGqrxPalette]. *)
Definition getGqrxPalette_table : list (Q * Q * Q) :=
  map getGqrxPalette_color (seqZ 0 256).

(** [SigDiggerHelpers::getGqrxPalette]: the palette built on first use. *)
Definition getGqrxPalette : Palette :=
  {| getName := "Gqrx"; getGradient := getGqrxPalette_table |}.

(** [SigDiggerHelpers::deserializePalettes]: [wf_gradient] is the table of
    DefaultGradient.h, [singleton] the palettes the Suscan singleton
    holds, from first to last. *)
Definition deserializePalettes (wf_gradient : list (Q * Q * Q))
    (singleton : list Palette) (palettes : list Palette) : list Palette :=
  let palettes :=
    if (length palettes =? 0)%nat then
      (palettes ++ [ {| getName := "Suscan"; getGradient := wf_gradient |};
                     getGqrxPalette ])%list
    else palettes in
  (palettes ++ singleton)%list.

(** A colour component between 0 and 1. *)
Definition unit_component (q : Q) : bool := Qle_bool 0 q && Qle_bool q 1.

Definition unit_color (c : Q * Q * Q) : bool :=
  let '(r, g, b) := c in
  unit_component r && unit_component g && unit_component b.

(** ** SigDiggerHelpers.cpp: limits of a capture *)

(** A [SUFLOAT] accumulator of [calcLimits]: one of the two infinities it
    starts from, or a sample component. *)
Inductive Limit :=
| LimitNegInf
| LimitAt (q : Q)
| LimitPosInf.

(** [x < limit] for a sample component [x]. *)
Definition SUFLOAT_lt (x : Q) (limit : Limit) : bool :=
  match limit with
  | LimitNegInf => false
  | LimitAt q => negb (Qle_bool q x)
  | LimitPosInf => true
  end.

(** [x > limit] for a sample component [x]. *)
Definition SUFLOAT_gt (x : Q) (limit : Limit) : bool :=
  match limit with
  | LimitNegInf => true
  | LimitAt q => negb (Qle_bool x q)
  | LimitPosInf => false
  end.

(** The four accumulators of [calcLimits]. *)
Record Limits := {
  minReal : Limit;
  maxReal : Limit;
  minImag : Limit;
  maxImag : Limit
}.

(** One turn of the loop of [calcLimits], on sample [z]. *)
Definition calcLimits_step (acc : Limits) (z : SUCOMPLEX) : Limits :=
  let minReal' :=
    if SUFLOAT_lt (fst z) (minReal acc) then LimitAt (fst z)
    else minReal acc in
  let minImag' :=
    if SUFLOAT_lt (snd z) (minImag acc) then LimitAt (snd z)
    else minImag acc in
  let maxReal' :=
    if SUFLOAT_gt (fst z) (maxReal acc) then LimitAt (fst z)
    else maxReal acc in
  let maxImag' :=
    if SUFLOAT_gt (snd z) (maxImag acc) then LimitAt (snd z)
    else maxImag acc in
  {| minReal := minReal'; maxReal := maxReal';
     minImag := minImag'; maxImag := maxImag' |}.

(** The accumulators when the loop of [calcLimits] ends; [data] holds the
    [length] samples the loop visits. *)
Definition calcLimits_loop (data : list SUCOMPLEX) : Limits :=
  fold_left calcLimits_step data
    {| minReal := LimitPosInf; maxReal := LimitNegInf;
       minImag := LimitPosInf; maxImag := LimitNegInf |}.

(** [re + I * im] when both accumulators hold sample components.  With an
    infinity left in one of them the sum is not a finite complex number;
    that case is not modelled and yields [None]. *)
Definition calcLimits_pack (re im : Limit) : option SUCOMPLEX :=
  match re, im with
  | LimitAt a, LimitAt b => Some (a, b)
  | _, _ => None
  end.

(** [SigDiggerHelpers::calcLimits]: what is stored to [oMin] and [oMax]. *)
Definition calcLimits (data : list SUCOMPLEX)
  : option SUCOMPLEX * option SUCOMPLEX :=
  let acc := calcLimits_loop data in
  (calcLimits_pack (minReal acc) (minImag acc),
   calcLimits_pack (maxReal acc) (maxImag acc)).

(** [lo] is a lower bound of the components [f z], taken by one of them. *)
Definition is_min (f : SUCOMPLEX → Q) (data : list SUCOMPLEX) (lo : Q)
  : Prop :=
  (∀ z, z ∈ data → (lo <= f z)%Q) ∧ ∃ z, z ∈ data ∧ f z = lo.

(** [hi] is an upper bound of the components [f z], taken by one of them. *)
Definition is_max (f : SUCOMPLEX → Q) (data : list SUCOMPLEX) (hi : Q)
  : Prop :=
  (∀ z, z ∈ data → (f z <= hi)%Q) ∧ ∃ z, z ∈ data ∧ f z = hi.

(** What a minimum accumulator holds after the samples [seen]. *)
Definition min_of (f : SUCOMPLEX → Q) (seen : list SUCOMPLEX) (l : Limit)
  : Prop :=
  match l with
  | LimitPosInf => seen = []
  | LimitAt lo => is_min f seen lo
  | LimitNegInf => False
  end.

(** What a maximum accumulator holds after the samples [seen]. *)
Definition max_of (f : SUCOMPLEX → Q) (seen : list SUCOMPLEX) (l : Limit)
  : Prop :=
  match l with
  | LimitNegInf => seen = []
  | LimitAt hi => is_max f seen hi
  | LimitPosInf => False
  end.

(** ** SigDiggerHelpers.cpp: the sample range of an export *)

(** [start] and [end] of [exportToMatlab] and [exportToMat5] after
    [if (start < 0) start = 0; if (end >= length) end = length - 1]. *)
Definition exportToMatlab_range (length start end_ : Z) : Z * Z :=
  let start := if (start <? 0)%Z then 0 else start in
  let end_ := if (end_ >=? length)%Z then length - 1 else end_ in
  (start, end_).

(** The indices [i] at which the loop
    [for (int i = start; i <= end; ++i)] of [exportToMatlab] and
    [exportToMat5] reads [data[i]], in order. *)
Definition exportToMatlab_indices (length start end_ : Z) : list Z :=
  let '(start, end_) := exportToMatlab_range length start end_ in
  seqZ start (end_ - start + 1).

(** [exportToWav]: the offset [start] into [data] and the sample count
    [end - start] handed to [sf_write_float], after
    [if (start < 0) start = 0; if (end > length) end = length]. *)
Definition exportToWav_range (length start end_ : Z) : Z * Z :=
  let start := if (start <? 0)%Z then 0 else start in
  let end_ := if (end_ >? length)%Z then length else end_ in
  (start, end_ - start).

(** Three palettes, two of them with the same name. *)
Definition palettes0 : list Palette :=
  [ {| getName := "Suscan"; getGradient := [] |};
    {| getName := "Magma"; getGradient := [(1, 0, 0)%Q] |};
    {| getName := "Magma"; getGradient := [(0, 1, 0)%Q] |} ].

(** ** Proof support *)

Ltac run :=
  unfold setEnabled, setAnalyzer, setSquelchEnabled, setSquelchLevel,
    setVolume, setDemod, setCutOff, setSampleRate, setDemodFreq,
    setAudioCorrection, setCorrectionEnabled, onInspectorMessage,
    onInspectorSamples, onOpened, onCancelled, onError,
    openAudio, closeAudio, closeAudio_body, setParams,
    when, assert, playBack, tracker, analyzer, assert_analyzer,
    gets, modify, emit, abort, mbind, M_bind, mret, M_ret;
  cbn.

Ltac run_in H :=
  unfold setEnabled, setAnalyzer, setSquelchEnabled, setSquelchLevel,
    setVolume, setDemod, setCutOff, setSampleRate, setDemodFreq,
    setAudioCorrection, setCorrectionEnabled, onInspectorMessage,
    onInspectorSamples, onOpened, onCancelled, onError,
    openAudio, closeAudio, closeAudio_body, setParams,
    when, assert, playBack, tracker, analyzer, assert_analyzer,
    gets, modify, emit, abort, mbind, M_bind, mret, M_ret in H;
  cbn in H.

(** Rewrite with the equations of the context until none applies. *)
Ltac use_hyps :=
  repeat match goal with
         | H : _ = _ |- _ => rewrite H; cbn
         end.

(** Case analysis on the innermost test the goal is stuck on. *)
Ltac split_test :=
  match goal with
  | |- context [match ?x with _ => _ end] =>
      lazymatch x with
      | context [match _ with _ => _ end] => fail
      | _ => destruct x eqn:?; cbn
      end
  end.

Ltac use_hyps_in H :=
  repeat match goal with
         | E : _ = _ |- _ =>
             tryif constr_eq E H then fail else (rewrite E in H; cbn in H)
         end.

(** Case analysis on the innermost test the equation [H] is stuck on. *)
Ltac split_test_in H :=
  match type of H with
  | context [match ?x with _ => _ end] =>
      lazymatch x with
      | context [match _ with _ => _ end] => fail
      | _ => destruct x eqn:?; cbn in H
      end
  end.

(** ** closeAudio *)

(** Outside Requesting and Streaming the guarded part of [closeAudio] is
    skipped: nothing is called, the three flags are cleared. *)
Lemma closeAudio_skips (s : State) (an : Analyzer) :
  m_analyzer s = Some an → m_opening s = false → m_opened s = false →
  closeAudio_body s =
    Ret tt (set_m_audioInspectorOpened false
             (set_m_opened false (set_m_opening false s))) [].
Proof.
  intros Han Hopening Hopened. run. use_hyps. reflexivity.
Qed.

(** From Requesting, pending tracker requests are cancelled and playback
    is stopped. *)
Lemma closeAudio_requesting (s : State) (an : Analyzer) :
  m_analyzer s = Some an → m_playBack s = true → m_tracker s = true →
  m_opening s = true → m_opened s = false →
  m_audioInspectorOpened s = false →
  closeAudio_body s =
    Ret tt (set_m_audioInspectorOpened false
             (set_m_opened false (set_m_opening false s)))
        [TrackerCancelAll; PlaybackStop].
Proof.
  intros Han Hpb Htr Hopening Hopened Hinsp. run. use_hyps. reflexivity.
Qed.


(** [closeAudio] never returns: when its statements run to the end, the
    run stops at the missing [return] with the calls they made. *)
Lemma closeAudio_missing_return (s s' : State) (log : list Effect) :
  closeAudio_body s = Ret tt s' log →
  closeAudio s = Abort MissingReturn log.
Proof.
  intros Hbody. unfold closeAudio, abort, mbind, M_bind.
  by rewrite Hbody, app_nil_r.
Qed.

(** C1.  Closing from Configuring ([m_opening = false], [m_opened = false],
    [m_audioInspectorOpened = true]): the statements of [closeAudio] clear
    the flags but neither close the remote inspector nor stop playback, so
    [closeAudio] reaches its end, where the [return] is missing, without
    having called anybody; and [setEnabled (false)] does not even reach
    [closeAudio], so the inspector stays marked open. *)
Theorem close_from_configuring_leaks_inspector :
  closeAudio_body configuring0 =
    Ret tt (set_m_audioInspectorOpened false configuring0) []
  ∧ closeAudio configuring0 = Abort MissingReturn []
  ∧ ∀ bw env,
      setEnabled bw env false configuring0 =
        Ret tt (set_m_enabled false configuring0) [].
Proof. split; [| split; [| intros bw env]]; reflexivity. Qed.

(** ** setParams *)

(** With a template, a bound analyzer and an open inspector, [setParams]
    makes one configuration write and leaves the state alone. *)
Lemma setParams_run (s : State) (an : Analyzer) (tmpl : Config) :
  m_analyzer s = Some an → m_audioCfgTemplate s = Some tmpl →
  m_audioInspectorOpened s = true →
  setParams s =
    Ret tt s [AnalyzerSetInspectorConfig (m_audioInspHandle s)
                (setParams_config tmpl s)].
Proof. intros Han Htmpl Hinsp. run. use_hyps. reflexivity. Qed.

(** Without a template the first assertion of [setParams] fails. *)
Lemma setParams_without_template (s : State) :
  m_audioCfgTemplate s = None → setParams s = Abort AssertionFailed [].
Proof. intros Htmpl. run. use_hyps. reflexivity. Qed.

(** The five fields that carry the cached value they are named after. *)
Lemma setParams_config_fields (tmpl : Config) (s : State) :
  setParams_config tmpl s !! "audio.cutoff" = Some (FFloat (m_cutOff s))
  ∧ setParams_config tmpl s !! "audio.volume" = Some (FFloat 1%Q)
  ∧ setParams_config tmpl s !! "audio.sample-rate"
      = Some (FInt (m_sampleRate s))
  ∧ setParams_config tmpl s !! "audio.squelch" = Some (FBool (m_squelch s))
  ∧ setParams_config tmpl s !! "audio.squelch-level"
      = Some (FFloat (m_squelchLevel s)).
Proof. unfold setParams_config. repeat split; by simplify_map_eq. Qed.

(** Every recognized field is present in a configuration write. *)
Lemma setParams_config_recognized (tmpl : Config) (s : State) :
  Forall (λ k, is_Some (setParams_config tmpl s !! k)) recognized_fields.
Proof.
  unfold setParams_config, recognized_fields.
  repeat constructor; simplify_map_eq; eauto.
Qed.

(** Fields outside the recognized set keep the value of the template. *)
Lemma setParams_config_other (tmpl : Config) (s : State) (k : string) :
  k ∉ recognized_fields → setParams_config tmpl s !! k = tmpl !! k.
Proof.
  unfold setParams_config, recognized_fields. intros Hk.
  repeat (rewrite lookup_insert_ne; [| intros <-; apply Hk; set_solver]).
  reflexivity.
Qed.

(** C4.  The configuration written by [setParams] stores the cached sample
    rate under "audio.demodulator"; the selected demodulation mode
    [m_demod] plays no part in the write.  So [setDemod (USB)] while
    streaming at 44100 pushes a configuration whose demodulator is 44100. *)
Theorem setParams_demodulator_is_sample_rate :
  (∀ (tmpl : Config) (s : State),
     setParams_config tmpl s !! "audio.demodulator"
       = Some (FInt (m_sampleRate s))
     ∧ ∀ demod, setParams_config tmpl (set_m_demod demod s)
                = setParams_config tmpl s)
  ∧ ∃ cfg,
      setDemod USB streaming0 =
        Ret tt (set_m_demod USB streaming0) [AnalyzerSetInspectorConfig 3 cfg]
      ∧ cfg !! "audio.demodulator" = Some (FInt 44100).
Proof.
  split.
  - intros tmpl s. unfold setParams_config.
    split; [by simplify_map_eq | reflexivity].
  - exists (setParams_config template0 (set_m_demod USB streaming0)).
    split; reflexivity.
Qed.

(** ** onOpened *)


(** With a template held and a successful duplication, the clone replaces
    the template and is the base of the configuration write. *)
Lemma onOpened_with_template (s : State) (an : Analyzer) (old : Config)
    (req : AnalyzerRequest) (config : Config) :
  m_analyzer s = Some an → m_audioCfgTemplate s = Some old →
  m_correctionEnabled s = false →
  onOpened true req config s =
    Ret tt
      (set_m_audioInspectorOpened true
         (set_m_audioInspId (req_inspectorId req)
            (set_m_audioInspHandle (req_handle req)
               (set_m_audioCfgTemplate (Some config)
                  (set_m_opening false s)))))
      [AnalyzerSetInspectorConfig (req_handle req)
         (setParams_config config s)].
Proof. intros Han Htmpl Hcorr. run. use_hyps. reflexivity. Qed.

(** With a template held and a failed duplication, the inspector just
    opened is closed, one error is raised and Configuring is not entered. *)
Lemma onOpened_clone_failure (s : State) (an : Analyzer) (old : Config)
    (req : AnalyzerRequest) (config : Config) :
  m_analyzer s = Some an → m_audioCfgTemplate s = Some old →
  onOpened false req config s =
    Ret tt (set_m_audioCfgTemplate None (set_m_opening false s))
      [AnalyzerCloseInspector (req_handle req);
       EmitAudioError "Failed to duplicate audio configuration"].
Proof. intros Han Htmpl. run. use_hyps. reflexivity. Qed.

(** C2.  First successful open, no template held yet: the template the
    remote side supplies is not cloned; [m_audioCfgTemplate] is still null
    when [setParams] runs, its assertion fails and no configuration is
    written. *)
Theorem onOpened_first_open_skips_clone :
  onOpened true req0 template0 (set_m_audioCfgTemplate None requesting0)
    = Abort AssertionFailed [].
Proof. reflexivity. Qed.

(** ** onInspectorMessage *)

Lemma count_app (p : Effect → bool) (l1 l2 : list Effect) :
  count p (l1 ++ l2) = (count p l1 + count p l2)%nat.
Proof. induction l1 as [| e l1 IH]; cbn; [reflexivity | rewrite IH; lia]. Qed.

(** The outcome of the rate check, field by field. *)
Lemma rate_acknowledged_true (sampleRate : Z) (cfg : Config) :
  rate_acknowledged sampleRate cfg = true ↔
    cfg !! "audio.sample-rate" = None
    ∨ cfg !! "audio.sample-rate" = Some (FInt sampleRate).
Proof.
  unfold rate_acknowledged, suscan_config_get_value.
  destruct (cfg !! "audio.sample-rate") as [[n | q | b] |]; cbn.
  - rewrite Z.eqb_eq. split.
    + intros ->. by right.
    + intros [? | [= ->]]; done.
  - split; [done | intros [? | ?]; done].
  - split; [done | intros [? | ?]; done].
  - split; [by left | done].
Qed.

(** An acknowledgement addressed to the open inspector: the state after it. *)
Lemma onInspectorMessage_set_config (s : State) (msg : InspectorMessage) :
  m_audioInspectorOpened s = true →
  msg_getInspectorId msg = m_audioInspId s →
  msg_getKind msg = SUSCAN_ANALYZER_INSPECTOR_MSGKIND_SET_CONFIG →
  onInspectorMessage msg s =
    Ret tt
      (set_m_settingRate
         (m_settingRate s
          && negb (rate_acknowledged (m_sampleRate s) (msg_getCConfig msg)))
         (set_m_opened true s))
      (if m_opened s then [] else [EmitAudioOpened]).
Proof.
  intros Hinsp Hid Hkind. run. rewrite Hinsp, Hid, Z.eqb_refl, Hkind. cbn.
  destruct s as [? ? ? ? ? opened settingRate ? ? ? ? rate ? ? ? ? ? ? ? ?].
  cbn in *.
  destruct opened, settingRate; cbn; try reflexivity;
    destruct (rate_acknowledged rate (msg_getCConfig msg)); reflexivity.
Qed.

(** C5 (amended).  For a configuration acknowledgement addressed to the
    open inspector while [m_settingRate] holds, [m_settingRate] is cleared
    exactly when the acknowledged configuration has no "audio.sample-rate"
    field or carries it with the requested rate; otherwise the controller
    stays in the rate transition. *)
Theorem settingRate_cleared_iff_absent_or_equal
    (s : State) (msg : InspectorMessage) :
  m_audioInspectorOpened s = true →
  msg_getInspectorId msg = m_audioInspId s →
  msg_getKind msg = SUSCAN_ANALYZER_INSPECTOR_MSGKIND_SET_CONFIG →
  m_settingRate s = true →
  ∃ s' log,
    onInspectorMessage msg s = Ret tt s' log
    ∧ m_sampleRate s' = m_sampleRate s
    ∧ (m_settingRate s' = false ↔
         msg_getCConfig msg !! "audio.sample-rate" = None
         ∨ msg_getCConfig msg !! "audio.sample-rate"
           = Some (FInt (m_sampleRate s))).
Proof.
  intros Hinsp Hid Hkind Hrate.
  rewrite (onInspectorMessage_set_config s msg Hinsp Hid Hkind).
  do 2 eexists. split; [reflexivity |]. cbn. split; [reflexivity |].
  rewrite Hrate. cbn. rewrite negb_false_iff.
  apply rate_acknowledged_true.
Qed.

(** Once [m_opened] holds, no inspector message raises [audioOpened] and
    [m_opened] stays set. *)
Lemma onInspectorMessage_when_opened (s : State) (msg : InspectorMessage) :
  m_opened s = true →
  ∃ s' log,
    onInspectorMessage msg s = Ret tt s' log
    ∧ m_opened s' = true ∧ count is_audioOpened log = 0%nat.
Proof.
  intros Hopened. run.
  destruct (m_audioInspectorOpened s); cbn; [| eauto].
  destruct (msg_getInspectorId msg =? m_audioInspId s)%Z; cbn; [| eauto].
  destruct (msg_getKind msg); cbn; rewrite ?Hopened; cbn; eauto.
  destruct (m_settingRate s); cbn; eauto.
  destruct (rate_acknowledged _ _); cbn; eauto.
Qed.

Lemma deliver_when_opened (msgs : list InspectorMessage) (s : State) :
  m_opened s = true →
  ∃ s' log,
    deliver msgs s = Ret tt s' log
    ∧ m_opened s' = true ∧ count is_audioOpened log = 0%nat.
Proof.
  revert s. induction msgs as [| msg msgs IH]; intros s Hopened.
  - exists s, []. auto.
  - destruct (onInspectorMessage_when_opened s msg Hopened)
      as (s1 & l1 & Hrun1 & Hopened1 & Hcount1).
    destruct (IH s1 Hopened1) as (s2 & l2 & Hrun2 & Hopened2 & Hcount2).
    exists s2, (l1 ++ l2)%list. cbn. unfold mbind, M_bind.
    rewrite Hrun1, Hrun2, count_app, Hcount1, Hcount2. auto.
Qed.

(** Before [m_opened] holds, one inspector message either raises
    [audioOpened] once and sets [m_opened], or raises none and leaves
    [m_opened] unset, or aborts without raising any. *)
Lemma onInspectorMessage_when_not_opened (s : State) (msg : InspectorMessage) :
  m_opened s = false →
  (∃ s', onInspectorMessage msg s = Ret tt s' [EmitAudioOpened]
         ∧ m_opened s' = true)
  ∨ (∃ s' log, onInspectorMessage msg s = Ret tt s' log
               ∧ m_opened s' = false ∧ count is_audioOpened log = 0%nat)
  ∨ (∃ f log, onInspectorMessage msg s = Abort f log
              ∧ count is_audioOpened log = 0%nat).
Proof.
  intros Hopened. run. repeat split_test; try congruence;
    first [ left; eexists; split; [reflexivity | reflexivity]
          | right; left; do 2 eexists; split; [reflexivity |];
            cbn; split; [assumption || reflexivity | reflexivity]
          | right; right; do 2 eexists; split; reflexivity ].
Qed.

(** Whatever the state and the messages, [audioOpened] is raised at most
    once while inspector messages are delivered. *)
Lemma deliver_audioOpened_at_most_once
    (msgs : list InspectorMessage) (s : State) :
  (count is_audioOpened (log_of (deliver msgs s)) ≤ 1)%nat.
Proof.
  revert s. induction msgs as [| msg msgs IH]; intros s; [cbn; lia |].
  destruct (m_opened s) eqn:Hopened.
  - destruct (deliver_when_opened (msg :: msgs) s Hopened)
      as (s' & log & -> & _ & Hcount).
    cbn. lia.
  - cbn. unfold mbind, M_bind.
    destruct (onInspectorMessage_when_not_opened s msg Hopened)
      as [(s1 & -> & Hopened1)
         | [(s1 & l1 & -> & Hopened1 & Hcount1)
           | (f & l1 & -> & Hcount1)]].
    + destruct (deliver_when_opened msgs s1 Hopened1)
        as (s2 & l2 & -> & _ & Hcount2).
      cbn. lia.
    + specialize (IH s1). destruct (deliver msgs s1); cbn in *;
        rewrite count_app; lia.
    + cbn. lia.
Qed.

(** C6.  In Configuring, the first configuration acknowledgement addressed
    to the inspector sets [m_opened] and raises [audioOpened] exactly once;
    whatever inspector messages follow raise no further [audioOpened]. *)
Theorem audioOpened_once_per_cycle
    (s : State) (ack : InspectorMessage) (later : list InspectorMessage) :
  m_audioInspectorOpened s = true →
  m_opened s = false →
  msg_getInspectorId ack = m_audioInspId s →
  msg_getKind ack = SUSCAN_ANALYZER_INSPECTOR_MSGKIND_SET_CONFIG →
  ∃ s1 l1 s2 l2,
    onInspectorMessage ack s = Ret tt s1 l1
    ∧ m_opened s1 = true
    ∧ count is_audioOpened l1 = 1%nat
    ∧ deliver later s1 = Ret tt s2 l2
    ∧ count is_audioOpened l2 = 0%nat.
Proof.
  intros Hinsp Hopened Hid Hkind.
  pose proof (onInspectorMessage_set_config s ack Hinsp Hid Hkind) as Hrun.
  rewrite Hopened in Hrun.
  match type of Hrun with _ = Ret tt ?s1 _ =>
    destruct (deliver_when_opened later s1 eq_refl)
      as (s2 & l2 & Hrun2 & _ & Hcount2);
    exists s1, [EmitAudioOpened], s2, l2
  end.
  auto.
Qed.

(** ** onInspectorSamples *)

(** C7.  A sample batch reaches the playback sink exactly when [m_opened]
    holds and the batch carries the id of the current inspector.  While
    [m_settingRate] holds, what is written is a batch of zeros of the same
    length; otherwise it is the batch itself.  The state is not changed. *)
Theorem onInspectorSamples_forwarding (s : State) (msg : SamplesMessage) :
  m_playBack s = true →
  (m_opened s = false ∨ smp_getInspectorId msg ≠ m_audioInspId s →
     onInspectorSamples msg s = Ret tt s [])
  ∧ (m_opened s = true → smp_getInspectorId msg = m_audioInspId s →
     m_settingRate s = true →
     ∃ silence,
       onInspectorSamples msg s =
         Ret tt s [PlaybackWrite silence (length (smp_getSamples msg))]
       ∧ length silence = length (smp_getSamples msg)
       ∧ Forall (λ x, x = SUCOMPLEX_zero) silence)
  ∧ (m_opened s = true → smp_getInspectorId msg = m_audioInspId s →
     m_settingRate s = false →
     onInspectorSamples msg s =
       Ret tt s [PlaybackWrite (smp_getSamples msg)
                   (length (smp_getSamples msg))]).
Proof.
  intros Hpb. repeat split.
  - intros [Hopened | Hid]; run.
    + rewrite Hopened. reflexivity.
    + apply Z.eqb_neq in Hid. rewrite Hid, andb_false_r. reflexivity.
  - intros Hopened Hid Hrate.
    exists (replicate (length (smp_getSamples msg)) SUCOMPLEX_zero).
    repeat split.
    + run. rewrite Hopened, Hid, Z.eqb_refl. cbn. rewrite Hrate, Hpb.
      reflexivity.
    + apply length_replicate.
    + apply Forall_forall. intros x Hx.
      by apply elem_of_replicate in Hx as [-> _].
  - intros Hopened Hid Hrate. run.
    rewrite Hopened, Hid, Z.eqb_refl. cbn. rewrite Hrate, Hpb. reflexivity.
Qed.

(** ** openAudio *)

Lemma Qgtb_true (a b : Q) : Qgtb a b = true ↔ (b < a)%Q.
Proof.
  unfold Qgtb. rewrite negb_true_iff, <- not_true_iff_false, Qle_bool_iff.
  split; [apply Qnot_le_lt | apply Qlt_not_le].
Qed.

Lemma Qgtb_false (a b : Q) : Qgtb a b = false ↔ (a <= b)%Q.
Proof. unfold Qgtb. by rewrite negb_false_iff, Qle_bool_iff. Qed.

Section OpenAudioFacts.

Variable bandwidth : Q.

(** The run of [openAudio] from a state that is neither opening nor
    opened, with a playback sink and a tracker. *)
Lemma openAudio_run (env : Env) (s : State) (an : Analyzer) :
  m_analyzer s = Some an → m_opening s = false → m_opened s = false →
  m_playBack s = true → m_tracker s = true →
  let reqRate := openAudio_reqRate bandwidth (m_sampleRate s) in
  let ch := openAudio_channel bandwidth (openAudio_maxFc an) (m_lo s) in
  let accepted := requestOpen env ch in
  openAudio bandwidth env s =
    Ret accepted
      (set_m_opening accepted
         (set_m_sampleRate (playback_getSampleRate env reqRate) s))
      ([PlaybackSetVolume (m_volume s); PlaybackSetSampleRate reqRate;
        PlaybackStart; TrackerRequestOpen "audio" ch]
       ++ (if accepted then []
           else [EmitAudioError
                   "Internal Suscan error while opening audio inspector";
                 PlaybackStop]))%list.
Proof.
  intros Han Hopening Hopened Hpb Htr. run. use_hyps.
  destruct (requestOpen env _); cbn; use_hyps; reflexivity.
Qed.


(** The channel prepared by [openAudio]. *)
Lemma openAudio_channel_spec (maxFc lo : Q) :
  let ch := openAudio_channel bandwidth maxFc lo in
  ((bandwidth <= maxFc)%Q → ch_bw ch = bandwidth)
  ∧ ((maxFc < bandwidth)%Q → ch_bw ch = maxFc)
  ∧ (ch_fLow ch == - (ch_bw ch / 2))%Q
  ∧ (ch_fHigh ch == ch_bw ch / 2)%Q
  ∧ ((Qabs lo <= maxFc)%Q → ch_fc ch = lo)
  ∧ (¬ (Qabs lo <= maxFc)%Q → ch_fc ch = 0%Q).
Proof.
  cbn. unfold openAudio_bw. repeat split.
  - intros Hle. apply Qgtb_false in Hle. by rewrite Hle.
  - intros Hlt. apply Qgtb_true in Hlt. by rewrite Hlt.
  - field.
  - field.
  - intros Habs. apply Qabs_Qle_condition in Habs as [Hlo Hhi].
    apply Qgtb_false in Hlo, Hhi. by rewrite Hlo, Hhi.
  - intros Habs.
    destruct (Qgtb lo maxFc) eqn:Hhi; [reflexivity |].
    destruct (Qgtb (- maxFc) lo) eqn:Hlo; [reflexivity |].
    exfalso. apply Habs, Qabs_Qle_condition.
    split; by apply Qgtb_false.
Qed.

(** C8 (amended).  The passband requested by [openAudio], for any analyzer sample
    rate: with [maxFc] the integer half of that rate and [bw] the audio
    bandwidth clamped to [maxFc], the edges are [-bw/2] and [+bw/2] and
    the centre is the local-oscillator offset when its magnitude is at
    most [maxFc], and [0] otherwise. *)
Theorem openAudio_passband (env : Env) (s : State) (an : Analyzer) :
  m_analyzer s = Some an → m_opening s = false → m_opened s = false →
  m_playBack s = true → m_tracker s = true →
  let maxFc := inject_Z (getSampleRate an / 2) in
  ∃ ch,
    TrackerRequestOpen "audio" ch ∈ log_of (openAudio bandwidth env s)
    ∧ ((bandwidth <= maxFc)%Q → ch_bw ch = bandwidth)
    ∧ ((maxFc < bandwidth)%Q → ch_bw ch = maxFc)
    ∧ (ch_fLow ch == - (ch_bw ch / 2))%Q
    ∧ (ch_fHigh ch == ch_bw ch / 2)%Q
    ∧ ((Qabs (m_lo s) <= maxFc)%Q → ch_fc ch = m_lo s)
    ∧ (¬ (Qabs (m_lo s) <= maxFc)%Q → ch_fc ch = 0%Q).
Proof.
  intros Han Hopening Hopened Hpb Htr maxFc.
  exists (openAudio_channel bandwidth (openAudio_maxFc an) (m_lo s)).
  split; [| apply openAudio_channel_spec].
  rewrite (openAudio_run env s an Han Hopening Hopened Hpb Htr). cbn.
  set_solver.
Qed.

End OpenAudioFacts.

(** ** Parameter setters *)

Lemma sufeq_true (a b tol : Q) :
  sufeq a b tol = true ↔ (Qabs (a - b) <= tol)%Q.
Proof. unfold sufeq. apply Qle_bool_iff. Qed.

Lemma AudioDemod_eqb_true (a b : AudioDemod) :
  AudioDemod_eqb a b = true ↔ a = b.
Proof. destruct a, b; cbn; split; congruence. Qed.

(** The guard of a setter passes exactly when its argument differs from
    the cached value. *)
Lemma setter_guard_true (c : Setter) (s : State) :
  setter_guard c s = true ↔ setter_differs c s.
Proof.
  destruct c; cbn; rewrite negb_true_iff, <- not_true_iff_false;
    rewrite ?sufeq_true, ?AudioDemod_eqb_true, ?eqb_true_iff; reflexivity.
Qed.

(** All five setters have the same shape. *)
Lemma run_setter_shape (c : Setter) (s : State) :
  run_setter c s =
    when (setter_guard c s)
      (modify (setter_cached c);;
       inspOpened ← gets m_audioInspectorOpened;
       when inspOpened setParams) s.
Proof.
  destruct c; cbn;
    unfold setCutOff, setSquelchEnabled, setSquelchLevel, setVolume, setDemod,
      when, modify, gets, mbind, M_bind, mret, M_ret; cbn;
    match goal with |- context [negb ?b] => destruct b end; cbn;
    try reflexivity;
    destruct (m_audioInspectorOpened s); cbn; try reflexivity;
    match goal with |- context [setParams ?x] => destruct (setParams x) end;
    reflexivity.
Qed.

(** A setter does not change what [setParams] asserts. *)
Lemma setter_cached_frame (c : Setter) (s : State) :
  m_analyzer (setter_cached c s) = m_analyzer s
  ∧ m_audioCfgTemplate (setter_cached c s) = m_audioCfgTemplate s
  ∧ m_audioInspectorOpened (setter_cached c s) = m_audioInspectorOpened s
  ∧ m_audioInspHandle (setter_cached c s) = m_audioInspHandle s.
Proof. destruct c; cbn; auto. Qed.

(** C9 (amended).  A parameter setter (cutoff, squelch enable, squelch
    level, volume, demodulation mode) whose argument does not differ from
    the cached value does nothing.  When it differs: with the inspector not
    open only the cached value is updated and no remote call is made; with
    the inspector open (template held, analyzer bound) the value is cached
    and one configuration write carrying every recognized field, built from
    the updated cache, is pushed at once. *)
Theorem setter_pushes_config_when_value_changes (c : Setter) (s : State) :
  (¬ setter_differs c s → run_setter c s = Ret tt s [])
  ∧ (setter_differs c s → m_audioInspectorOpened s = false →
     run_setter c s = Ret tt (setter_cached c s) [])
  ∧ (setter_differs c s → m_audioInspectorOpened s = true →
     ∀ an tmpl,
       m_analyzer s = Some an → m_audioCfgTemplate s = Some tmpl →
       ∃ cfg,
         run_setter c s =
           Ret tt (setter_cached c s)
             [AnalyzerSetInspectorConfig (m_audioInspHandle s) cfg]
         ∧ cfg = setParams_config tmpl (setter_cached c s)
         ∧ Forall (λ k, is_Some (cfg !! k)) recognized_fields).
Proof.
  rewrite run_setter_shape.
  destruct (setter_cached_frame c s) as (Han' & Htmpl' & Hinsp' & Hh').
  repeat split.
  - intros Hsame. rewrite <- setter_guard_true in Hsame.
    apply not_true_is_false in Hsame. rewrite Hsame. reflexivity.
  - intros Hdiff Hinsp. apply setter_guard_true in Hdiff. rewrite Hdiff.
    unfold when, modify, gets, mbind, M_bind, mret, M_ret. cbn.
    rewrite Hinsp', Hinsp. reflexivity.
  - intros Hdiff Hinsp an tmpl Han Htmpl.
    apply setter_guard_true in Hdiff. rewrite Hdiff.
    exists (setParams_config tmpl (setter_cached c s)).
    split; [| split; [reflexivity | apply setParams_config_recognized]].
    unfold when, modify, gets, mbind, M_bind, mret, M_ret. cbn.
    rewrite Hinsp', Hinsp.
    rewrite (setParams_run (setter_cached c s) an tmpl) by congruence.
    rewrite Hh'. reflexivity.
Qed.

(** ** Volume *)

(** [m_playBack->setVolume] is called from [openAudio] only: a call that
    cannot reach [openAudio] never sets the volume of the sink. *)
Lemma playback_setVolume_only_in_openAudio
    (bandwidth : Q) (env : Env) (c : Call) (s : State) :
  reaches_openAudio c = false →
  count is_playbackSetVolume (log_of (call bandwidth env c s)) = 0%nat.
Proof.
  intros Hc. destruct c as [| | [a |] | [|] | | | | | | | | | | | | | |];
    try discriminate Hc; cbn; run; repeat split_test; reflexivity.
Qed.

(** C10.  [setVolume] never calls [m_playBack->setVolume]: within the
    tolerance of 0.1 it does nothing; beyond it the new value is cached
    and, with the inspector open, one configuration is written whose
    "audio.volume" is 1.  The sink volume is set by [openAudio], from the
    cached value, and by no call that cannot reach [openAudio]. *)
Theorem setVolume_leaves_sink_volume (s : State) (volume : Q) :
  count is_playbackSetVolume (log_of (setVolume volume s)) = 0%nat
  ∧ ((Qabs (m_volume s - volume) <= 1 # 10)%Q →
     setVolume volume s = Ret tt s [])
  ∧ (¬ (Qabs (m_volume s - volume) <= 1 # 10)%Q →
     m_audioInspectorOpened s = false →
     setVolume volume s = Ret tt (set_m_volume volume s) [])
  ∧ (¬ (Qabs (m_volume s - volume) <= 1 # 10)%Q →
     m_audioInspectorOpened s = true →
     ∀ an tmpl,
       m_analyzer s = Some an → m_audioCfgTemplate s = Some tmpl →
       ∃ cfg,
         setVolume volume s =
           Ret tt (set_m_volume volume s)
             [AnalyzerSetInspectorConfig (m_audioInspHandle s) cfg]
         ∧ cfg !! "audio.volume" = Some (FFloat 1%Q))
  ∧ (∀ bandwidth env c s0,
       reaches_openAudio c = false →
       count is_playbackSetVolume (log_of (call bandwidth env c s0)) = 0%nat)
  ∧ (∀ bandwidth env an,
       m_analyzer s = Some an → m_opening s = false → m_opened s = false →
       m_playBack s = true → m_tracker s = true →
       PlaybackSetVolume (m_volume s)
         ∈ log_of (openAudio bandwidth env s)).
Proof.
  pose proof (run_setter_shape (SetVolume volume) s) as Hshape.
  pose proof (setter_guard_true (SetVolume volume) s) as Hguard.
  cbn in Hshape, Hguard.
  split; [| split; [| split; [| split; [| split]]]].
  - exact (playback_setVolume_only_in_openAudio 0%Q env_ok
             (CallSetVolume volume) s eq_refl).
  - intros Hnear. rewrite Hshape.
    destruct (negb (sufeq (m_volume s) volume (1 # 10))); [| reflexivity].
    exfalso. by apply Hguard.
  - intros Hfar Hinsp. apply Hguard in Hfar. rewrite Hshape, Hfar.
    unfold when, modify, gets, mbind, M_bind, mret, M_ret. cbn.
    rewrite Hinsp. reflexivity.
  - intros Hfar Hinsp an tmpl Han Htmpl.
    apply Hguard in Hfar. rewrite Hshape, Hfar.
    exists (setParams_config tmpl (set_m_volume volume s)).
    split; [| apply setParams_config_fields].
    unfold when, modify, gets, mbind, M_bind, mret, M_ret. cbn.
    rewrite Hinsp.
    by rewrite (setParams_run (set_m_volume volume s) an tmpl).
  - apply playback_setVolume_only_in_openAudio.
  - intros bandwidth env an Han Hopening Hopened Hpb Htr.
    rewrite (openAudio_run bandwidth env s an Han Hopening Hopened Hpb Htr).
    cbn. apply list_elem_of_here.
Qed.

(** ** Retrying after a failed open attempt *)

(** [setEnabled] with the value [m_enabled] already has does nothing. *)
Lemma setEnabled_same (bandwidth : Q) (env : Env) (s : State) (b : bool) :
  m_enabled s = b → setEnabled bandwidth env b s = Ret tt s [].
Proof. intros <-. run. by rewrite eqb_reflx. Qed.











(** ** The statements at concrete inputs *)

(** The spec's scenario: bandwidth 8000, Nyquist limit 1e6, offset 0. *)
Example openAudio_channel_scenario :
  let ch := openAudio_channel 8000 1000000 0 in
  ch_bw ch = 8000%Q ∧ (ch_fLow ch == - 4000)%Q ∧ (ch_fHigh ch == 4000)%Q
  ∧ ch_fc ch = 0%Q.
Proof. cbn. repeat split. Qed.



(** C5, counterexample.  During a rate transition to 44100, an
    acknowledgement without any "audio.sample-rate" field clears
    [m_settingRate]. *)
Lemma ack_without_rate_clears_settingRate :
  m_settingRate rate_transition0 = true
  ∧ msg_getCConfig (ack0 ∅) !! "audio.sample-rate" = None
  ∧ onInspectorMessage (ack0 ∅) rate_transition0 = Ret tt streaming0 [].
Proof. repeat split. Qed.

(** An acknowledgement carrying rate 8000 while 44100 was requested. *)
Lemma settingRate_cleared_iff_absent_or_equal_witness :
  ∃ s' log,
    onInspectorMessage (ack0 {["audio.sample-rate" := FInt 8000]})
      rate_transition0 = Ret tt s' log
    ∧ m_sampleRate s' = 44100
    ∧ (m_settingRate s' = false ↔
         ({["audio.sample-rate" := FInt 8000]} : Config)
           !! "audio.sample-rate" = None
         ∨ ({["audio.sample-rate" := FInt 8000]} : Config)
             !! "audio.sample-rate" = Some (FInt 44100)).
Proof.
  exact (settingRate_cleared_iff_absent_or_equal rate_transition0
           (ack0 {["audio.sample-rate" := FInt 8000]})
           eq_refl eq_refl eq_refl eq_refl).
Defined.

(** Three acknowledgements in a row, starting in [configuring0]. *)
Lemma audioOpened_once_per_cycle_witness :
  ∃ s1 l1 s2 l2,
    onInspectorMessage (ack0 ∅) configuring0 = Ret tt s1 l1
    ∧ m_opened s1 = true
    ∧ count is_audioOpened l1 = 1%nat
    ∧ deliver [ack0 ∅; ack0 template0] s1 = Ret tt s2 l2
    ∧ count is_audioOpened l2 = 0%nat.
Proof.
  exact (audioOpened_once_per_cycle configuring0 (ack0 ∅)
           [ack0 ∅; ack0 template0] eq_refl eq_refl eq_refl eq_refl).
Defined.

(** [batch0] before the first acknowledgement, during a rate transition
    and while streaming. *)
Lemma onInspectorSamples_forwarding_witness :
  onInspectorSamples batch0 configuring0 = Ret tt configuring0 []
  ∧ (∃ silence,
       onInspectorSamples batch0 rate_transition0 =
         Ret tt rate_transition0 [PlaybackWrite silence 3]
       ∧ length silence = 3%nat
       ∧ Forall (λ x, x = SUCOMPLEX_zero) silence)
  ∧ onInspectorSamples batch0 streaming0 =
      Ret tt streaming0 [PlaybackWrite (smp_getSamples batch0) 3].
Proof.
  destruct (onInspectorSamples_forwarding configuring0 batch0 eq_refl)
    as (Hdrop & _ & _).
  destruct (onInspectorSamples_forwarding rate_transition0 batch0 eq_refl)
    as (_ & Hsilence & _).
  destruct (onInspectorSamples_forwarding streaming0 batch0 eq_refl)
    as (_ & _ & Hpass).
  split; [exact (Hdrop (or_introl eq_refl)) | split].
  - exact (Hsilence eq_refl eq_refl eq_refl).
  - exact (Hpass eq_refl eq_refl eq_refl).
Defined.

(** The passband requested from [idle0] with an audio bandwidth of 200000:
    the analyzer rate of 250000 clamps it to 125000. *)
Lemma openAudio_passband_witness :
  ∃ ch,
    TrackerRequestOpen "audio" ch ∈ log_of (openAudio 200000 env_ok idle0)
    ∧ ch_bw ch = 125000%Q
    ∧ (ch_fLow ch == - 62500)%Q
    ∧ (ch_fHigh ch == 62500)%Q
    ∧ ch_fc ch = 0%Q.
Proof.
  destruct (openAudio_passband 200000 env_ok idle0 analyzer0
              eq_refl eq_refl eq_refl eq_refl eq_refl)
    as (ch & Hin & _ & Hbw & Hlow & Hhigh & Hfc & _).
  assert (Hbw' : ch_bw ch = 125000%Q) by (apply Hbw; reflexivity).
  exists ch. split; [exact Hin | split; [exact Hbw' | split; [| split]]].
  - rewrite Hlow, Hbw'. reflexivity.
  - rewrite Hhigh, Hbw'. reflexivity.
  - apply Hfc. discriminate.
Defined.

(** C8, counterexample.  With the odd analyzer rate 250001 and a tuning
    offset of exactly half of it, 125000.5: the offset is within half the
    rate, and half the rate is below the audio bandwidth 200000; yet the
    channel [openAudio] requests has centre 0, not the offset, and
    bandwidth 125000, not half the rate, because [maxFc] is computed by
    the integer division [getSampleRate () / 2 = 125000]. *)
Lemma openAudio_odd_rate_halves_by_integer_division :
  let half := (250001 # 2)%Q in
  let ch :=
    {| ch_bw := 125000%Q; ch_ft := 0%Q; ch_fc := 0%Q;
       ch_fLow := (- (1 # 2) * 125000)%Q;
       ch_fHigh := ((1 # 2) * 125000)%Q |} in
  m_analyzer odd_rate0 = Some {| getSampleRate := 250001 |}
  ∧ m_lo odd_rate0 = half
  ∧ (Qabs (m_lo odd_rate0) <= half)%Q
  ∧ (half < 200000)%Q
  ∧ log_of (openAudio 200000 env_ok odd_rate0) =
      [PlaybackSetVolume (1 # 2); PlaybackSetSampleRate 44100; PlaybackStart;
       TrackerRequestOpen "audio" ch]
  ∧ ¬ (ch_fc ch == m_lo odd_rate0)%Q
  ∧ ¬ (ch_bw ch == half)%Q.
Proof.
  cbv zeta. repeat match goal with |- _ ∧ _ => split end;
    try reflexivity; try discriminate.
Qed.

(** C9, counterexample.  While streaming, with the inspector open,
    [setSquelchEnabled (false)] on a controller whose squelch is already
    off makes no remote call. *)
Lemma setSquelchEnabled_unchanged_pushes_nothing :
  m_audioInspectorOpened streaming0 = true
  ∧ m_squelch streaming0 = false
  ∧ setSquelchEnabled false streaming0 = Ret tt streaming0 [].
Proof. repeat split. Qed.

(** A volume within tolerance, a cutoff cached while idle, a squelch
    change pushed while streaming. *)
Lemma setter_pushes_config_when_value_changes_witness :
  run_setter (SetVolume (11 # 20)) streaming0 = Ret tt streaming0 []
  ∧ run_setter (SetCutOff 3000) idle0 = Ret tt (set_m_cutOff 3000 idle0) []
  ∧ ∃ cfg,
      run_setter (SetSquelchEnabled true) streaming0 =
        Ret tt (set_m_squelch true streaming0)
          [AnalyzerSetInspectorConfig 3 cfg]
      ∧ cfg = setParams_config template0 (set_m_squelch true streaming0)
      ∧ Forall (λ k, is_Some (cfg !! k)) recognized_fields.
Proof.
  destruct (setter_pushes_config_when_value_changes
              (SetVolume (11 # 20)) streaming0) as (Hsame & _ & _).
  destruct (setter_pushes_config_when_value_changes
              (SetCutOff 3000) idle0) as (_ & Hcache & _).
  destruct (setter_pushes_config_when_value_changes
              (SetSquelchEnabled true) streaming0) as (_ & _ & Hpush).
  split; [| split].
  - apply Hsame. intros Hdiff. apply Hdiff. discriminate.
  - apply Hcache; [| reflexivity]. intros Hnear. by apply Hnear.
  - apply (Hpush ltac:(discriminate) eq_refl analyzer0 template0);
      reflexivity.
Defined.

(** [setVolume] within and beyond the tolerance, idle and streaming. *)
Lemma setVolume_leaves_sink_volume_witness :
  setVolume (11 # 20) streaming0 = Ret tt streaming0 []
  ∧ setVolume 1 idle0 = Ret tt (set_m_volume 1 idle0) []
  ∧ (∃ cfg,
       setVolume 1 streaming0 =
         Ret tt (set_m_volume 1 streaming0)
           [AnalyzerSetInspectorConfig 3 cfg]
       ∧ cfg !! "audio.volume" = Some (FFloat 1%Q))
  ∧ PlaybackSetVolume (1 # 2) ∈ log_of (openAudio 200000 env_ok idle0).
Proof.
  destruct (setVolume_leaves_sink_volume streaming0 (11 # 20))
    as (_ & Hnear & _).
  destruct (setVolume_leaves_sink_volume idle0 1)
    as (_ & _ & Hcache & _ & _ & Hopen).
  destruct (setVolume_leaves_sink_volume streaming0 1)
    as (_ & _ & _ & Hpush & _).
  split; [| split; [| split]].
  - apply Hnear. discriminate.
  - apply Hcache; [| reflexivity]. intros Hnear'. by apply Hnear'.
  - apply (Hpush ltac:(intros Hnear'; by apply Hnear') eq_refl
             analyzer0 template0); reflexivity.
  - exact (Hopen 200000%Q env_ok analyzer0
             eq_refl eq_refl eq_refl eq_refl eq_refl).
Defined.

(** * Further properties of the controller *)

(** Two runs in a row. *)
Lemma run_seq {A B : Type} (m : M A) (f : A → M B) (s s1 s2 : State)
    (a : A) (b : B) (l1 l2 : list Effect) :
  m s = Ret a s1 l1 → f a s1 = Ret b s2 l2 →
  (m ≫= f) s = Ret b s2 (l1 ++ l2)%list.
Proof. intros H1 H2. unfold mbind, M_bind. by rewrite H1, H2. Qed.


(** Splitting the conjunctions among the hypotheses. *)
Ltac split_andb :=
  repeat match goal with
         | H : _ && _ = true |- _ => apply andb_true_iff in H as [? ?]
         end.

(** X1.  While opening or opened, with analyzer, sink and tracker present,
    the statements of [closeAudio] close the inspector if one is held,
    cancel the pending requests unless the channel is opened, stop playback
    and clear the three flags; [closeAudio] then stops at its missing
    [return], having made exactly these calls. *)
Theorem closeAudio_releases_then_idles (s : State) (an : Analyzer) :
  m_analyzer s = Some an → m_playBack s = true → m_tracker s = true →
  m_opening s || m_opened s = true →
  let released :=
    ((if m_audioInspectorOpened s
      then [AnalyzerCloseInspector (m_audioInspHandle s)] else [])
     ++ (if m_opened s then [] else [TrackerCancelAll])
     ++ [PlaybackStop])%list in
  ∃ s',
    closeAudio_body s = Ret tt s' released
    ∧ m_opening s' = false ∧ m_opened s' = false
    ∧ m_audioInspectorOpened s' = false
    ∧ closeAudio s = Abort MissingReturn released.
Proof.
  intros Han Hpb Htr Hbusy released.
  assert (Hbody : closeAudio_body s =
            Ret tt (set_m_audioInspectorOpened false
                      (set_m_opened false (set_m_opening false s)))
              released).
  { subst released. run. rewrite Han. cbn. rewrite Hbusy. cbn.
    destruct (m_audioInspectorOpened s), (m_opened s); cbn;
      rewrite ?Han, ?Htr, ?Hpb; cbn; rewrite ?Htr, ?Hpb; cbn;
      rewrite ?Hpb; reflexivity. }
  eexists. split; [exact Hbody |].
  repeat match goal with |- _ ∧ _ => split end; try reflexivity.
  exact (closeAudio_missing_return _ _ _ Hbody).
Qed.

(** X2.  A tracker "opened" event while a template is held: when the
    duplication succeeds, the clone replaces the template, handle and id
    are recorded and one configuration built on the clone is written to
    the new handle, followed by the Doppler correction if it is enabled;
    when it fails, the new inspector is closed, one error is raised, and
    the inspector is not marked open. *)
Theorem onOpened_with_template_held
    (s : State) (an : Analyzer) (old : Config)
    (req : AnalyzerRequest) (config : Config) :
  m_analyzer s = Some an → m_audioCfgTemplate s = Some old →
  (∃ s',
     onOpened true req config s =
       Ret tt s'
         (AnalyzerSetInspectorConfig (req_handle req)
            (setParams_config config s)
          :: (if m_correctionEnabled s
              then [AnalyzerSetInspectorDopplerCorrection (req_handle req)
                      (m_orbit s)]
              else []))
     ∧ m_audioCfgTemplate s' = Some config
     ∧ m_opening s' = false ∧ m_audioInspectorOpened s' = true
     ∧ m_audioInspHandle s' = req_handle req
     ∧ m_audioInspId s' = req_inspectorId req)
  ∧ (∃ s',
       onOpened false req config s =
         Ret tt s'
           [AnalyzerCloseInspector (req_handle req);
            EmitAudioError "Failed to duplicate audio configuration"]
       ∧ m_opening s' = false
       ∧ m_audioInspectorOpened s' = m_audioInspectorOpened s
       ∧ m_audioInspHandle s' = m_audioInspHandle s).
Proof.
  intros Han Htmpl. split.
  - destruct (m_correctionEnabled s) eqn:Hcorr.
    + eexists. split.
      * run. rewrite Han. cbn. rewrite Htmpl. cbn. rewrite Han. cbn.
        rewrite Han. cbn. rewrite Hcorr. cbn. rewrite Han. reflexivity.
      * repeat match goal with |- _ ∧ _ => split end; reflexivity.
    + rewrite (onOpened_with_template s an old req config Han Htmpl Hcorr).
      eexists. split; [reflexivity |].
      repeat match goal with |- _ ∧ _ => split end; reflexivity.
  - rewrite (onOpened_clone_failure s an old req config Han Htmpl).
    eexists. split; [reflexivity |].
    repeat match goal with |- _ ∧ _ => split end; reflexivity.
Qed.

(** X3.  With a template held, an analyzer bound and the inspector open,
    [setParams] leaves the state alone and makes one write to the handle
    held: cutoff, sample rate, squelch and squelch level carry the cached
    values, the volume is 1, and every field outside the recognized six
    keeps the value of the template. *)
Theorem setParams_writes_cache_over_template
    (s : State) (an : Analyzer) (tmpl : Config) :
  m_analyzer s = Some an → m_audioCfgTemplate s = Some tmpl →
  m_audioInspectorOpened s = true →
  ∃ cfg,
    setParams s =
      Ret tt s [AnalyzerSetInspectorConfig (m_audioInspHandle s) cfg]
    ∧ cfg !! "audio.cutoff" = Some (FFloat (m_cutOff s))
    ∧ cfg !! "audio.volume" = Some (FFloat 1%Q)
    ∧ cfg !! "audio.sample-rate" = Some (FInt (m_sampleRate s))
    ∧ cfg !! "audio.squelch" = Some (FBool (m_squelch s))
    ∧ cfg !! "audio.squelch-level" = Some (FFloat (m_squelchLevel s))
    ∧ ∀ k, k ∉ recognized_fields → cfg !! k = tmpl !! k.
Proof.
  intros Han Htmpl Hinsp. exists (setParams_config tmpl s).
  split; [by apply (setParams_run s an) |].
  destruct (setParams_config_fields tmpl s) as (H1 & H2 & H3 & H4 & H5).
  repeat match goal with |- _ ∧ _ => split end; try assumption.
  apply setParams_config_other.
Qed.

Section ControllerFacts.

Variable bandwidth : Q.

(** X4.  With an analyzer bound, [openAudio] does nothing while a request
    is pending (it returns [true]) and nothing once the channel is opened
    (it returns [false]): no second open request is sent. *)
Theorem openAudio_while_busy (env : Env) (s : State) :
  is_Some (m_analyzer s) →
  (m_opening s = true → openAudio bandwidth env s = Ret true s [])
  ∧ (m_opening s = false → m_opened s = true →
     openAudio bandwidth env s = Ret false s []).
Proof.
  intros [an Han]. split.
  - intros Hopening. run. rewrite Han. cbn. by rewrite Hopening.
  - intros Hopening Hopened. run. rewrite Han. cbn. rewrite Hopening. cbn.
    by rewrite Hopened.
Qed.

(** X5.  When [openAudio] starts the sink, the rate it asks for exceeds
    neither the audio bandwidth nor the cached rate, and is the cached
    rate whenever that does not exceed the bandwidth; the rate the sink
    reports becomes the cached rate. *)
Theorem openAudio_requested_rate_capped
    (env : Env) (s : State) (an : Analyzer) :
  m_analyzer s = Some an → m_opening s = false → m_opened s = false →
  m_playBack s = true → m_tracker s = true →
  ∃ rate accepted s' log,
    openAudio bandwidth env s = Ret accepted s' log
    ∧ PlaybackSetSampleRate rate ∈ log
    ∧ (inject_Z rate <= bandwidth)%Q
    ∧ (rate ≤ m_sampleRate s)%Z
    ∧ ((inject_Z (m_sampleRate s) <= bandwidth)%Q → rate = m_sampleRate s)
    ∧ m_sampleRate s' = playback_getSampleRate env rate.
Proof.
  intros Han Hopening Hopened Hpb Htr.
  rewrite (openAudio_run bandwidth env s an Han Hopening Hopened Hpb Htr).
  do 4 eexists. split; [reflexivity |]. cbn.
  split; [apply list_elem_of_further, list_elem_of_here |].
  unfold openAudio_reqRate.
  destruct (Qgtb (inject_Z (m_sampleRate s)) bandwidth) eqn:Hgt.
  - apply Qgtb_true in Hgt. repeat split.
    + apply Qfloor_le.
    + apply Z.lt_le_incl. rewrite Zlt_Qlt.
      eapply Qle_lt_trans; [apply Qfloor_le | exact Hgt].
    + intros Hle. exfalso. by apply (Qlt_not_le _ _ Hgt).
  - apply Qgtb_false in Hgt. repeat split; [exact Hgt | lia].
Qed.

(** X6.  [setEnabled] is idempotent: once a call has returned, the same
    call again changes nothing and calls nobody. *)
Theorem setEnabled_idempotent
    (env env' : Env) (enabled : bool) (s s' : State) (log : list Effect) :
  setEnabled bandwidth env enabled s = Ret tt s' log →
  setEnabled bandwidth env' enabled s' = Ret tt s' [].
Proof.
  intros Hrun. apply setEnabled_same.
  destruct enabled; run_in Hrun; repeat split_test_in Hrun;
    try discriminate Hrun; injection Hrun as <- <-; cbn;
    try reflexivity;
    match goal with H : negb (eqb _ _) = false |- _ =>
      apply negb_false_iff, eqb_prop in H; exact H end.
Qed.

(** X7.  With no analyzer bound, [openAudio] and [closeAudio] fail their
    assertion, and so does [setEnabled (true)] on an idle controller; a
    tracker "opened" event only clears [m_opening]: the inspector it
    announces is neither recorded nor closed. *)
Theorem calls_without_analyzer (env : Env) (s : State) :
  m_analyzer s = None →
  openAudio bandwidth env s = Abort AssertionFailed []
  ∧ closeAudio s = Abort AssertionFailed []
  ∧ (m_enabled s = false → m_opening s = false → m_opened s = false →
     setEnabled bandwidth env true s = Abort AssertionFailed [])
  ∧ (∀ alloc_ok req config,
       onOpened alloc_ok req config s = Ret tt (set_m_opening false s) []).
Proof.
  intros Han. repeat split.
  - run. by rewrite Han.
  - run. by rewrite Han.
  - intros Henabled Hopening Hopened. run. rewrite Henabled. cbn.
    rewrite Hopened, Hopening. cbn. by rewrite Han.
  - intros alloc_ok req config. run. by rewrite Han.
Qed.

End ControllerFacts.

(** X8.  An inspector message changes nothing and calls nobody when no
    inspector is held, when it carries another inspector id, when its kind
    is none of those the controller knows, or when it is a wrong-state
    message arriving after the channel was opened. *)
Theorem inspector_message_ignored (s : State) (msg : InspectorMessage) :
  m_audioInspectorOpened s = false
  ∨ msg_getInspectorId msg ≠ m_audioInspId s
  ∨ msg_getKind msg = SUSCAN_ANALYZER_INSPECTOR_MSGKIND_OTHER
  ∨ (is_wrong_kind (msg_getKind msg) = true ∧ m_opened s = true) →
  onInspectorMessage msg s = Ret tt s [].
Proof.
  intros [Hclosed | [Hid | [Hother | [Hwrong Hopened]]]]; run.
  - by rewrite Hclosed.
  - apply Z.eqb_neq in Hid. by rewrite Hid, andb_false_r.
  - rewrite Hother. by destruct (_ && _).
  - destruct (_ && _); [| reflexivity].
    destruct (msg_getKind msg); try discriminate Hwrong;
      by rewrite Hopened.
Qed.

(** X9.  A wrong-state message for the held inspector before the first
    acknowledgement, with no request pending and an analyzer bound: the
    handler runs [closeAudio], whose statements clear the three flags and
    call nobody (the inspector is not closed, playback is not stopped),
    and stops at the missing [return] of [closeAudio], before the error
    notification that follows the call. *)
Theorem wrong_state_before_opened (s : State) (msg : InspectorMessage) :
  m_audioInspectorOpened s = true →
  msg_getInspectorId msg = m_audioInspId s →
  is_wrong_kind (msg_getKind msg) = true →
  m_opened s = false → m_opening s = false → is_Some (m_analyzer s) →
  closeAudio_body s =
    Ret tt (set_m_audioInspectorOpened false
             (set_m_opened false (set_m_opening false s))) []
  ∧ onInspectorMessage msg s = Abort MissingReturn [].
Proof.
  intros Hinsp Hid Hwrong Hopened Hopening [an Han]. split.
  - by apply (closeAudio_skips s an).
  - run. rewrite Hinsp, Hid, Z.eqb_refl. cbn.
    destruct (msg_getKind msg); try discriminate Hwrong;
      rewrite Hopened; cbn; rewrite Han; cbn;
      rewrite Hopening, Hopened; reflexivity.
Qed.

(** X10.  Changing the sample rate while streaming: the sink gets the new
    rate at once and one configuration carrying it is written; from then
    on every batch of the inspector is written as zeros of the same
    length, also after an acknowledgement that still carries the old
    rate; after the acknowledgement carrying the new rate the batch itself
    is written. *)
Theorem rate_change_silences_until_acknowledged
    (s : State) (an : Analyzer) (tmpl : Config) (rate : Z)
    (batch : SamplesMessage) (ack stale : InspectorMessage) :
  m_analyzer s = Some an → m_audioCfgTemplate s = Some tmpl →
  m_playBack s = true →
  m_audioInspectorOpened s = true → m_opened s = true →
  m_sampleRate s ≠ rate →
  smp_getInspectorId batch = m_audioInspId s →
  msg_getInspectorId ack = m_audioInspId s →
  msg_getKind ack = SUSCAN_ANALYZER_INSPECTOR_MSGKIND_SET_CONFIG →
  msg_getCConfig ack !! "audio.sample-rate" = Some (FInt rate) →
  msg_getInspectorId stale = m_audioInspId s →
  msg_getKind stale = SUSCAN_ANALYZER_INSPECTOR_MSGKIND_SET_CONFIG →
  msg_getCConfig stale !! "audio.sample-rate"
    = Some (FInt (m_sampleRate s)) →
  let n := length (smp_getSamples batch) in
  let silence := replicate n SUCOMPLEX_zero in
  ∃ s1 cfg,
    setSampleRate rate s =
      Ret tt s1 [PlaybackSetSampleRate rate;
                 AnalyzerSetInspectorConfig (m_audioInspHandle s) cfg]
    ∧ cfg !! "audio.sample-rate" = Some (FInt rate)
    ∧ onInspectorSamples batch s1 = Ret tt s1 [PlaybackWrite silence n]
    ∧ (∃ s1',
         onInspectorMessage stale s1 = Ret tt s1' []
         ∧ onInspectorSamples batch s1' = Ret tt s1' [PlaybackWrite silence n])
    ∧ (∃ s2,
         onInspectorMessage ack s1 = Ret tt s2 []
         ∧ onInspectorSamples batch s2 =
             Ret tt s2 [PlaybackWrite (smp_getSamples batch) n]).
Proof.
  intros Han Htmpl Hpb Hinsp Hopened Hrate Hbatch Hack Hackk Hackr
    Hstale Hstalek Hstaler n silence.
  set (s1 := set_m_settingRate true (set_m_sampleRate rate s)).
  exists s1, (setParams_config tmpl s1).
  assert (Hneq : (m_sampleRate s =? rate)%Z = false) by by apply Z.eqb_neq.
  split; [| split; [| split; [| split]]].
  - run. rewrite Hneq. cbn. rewrite Hpb. cbn. rewrite Hinsp. cbn.
    rewrite Htmpl. cbn. rewrite Han. cbn. rewrite Hinsp. cbn.
    rewrite Han. reflexivity.
  - apply setParams_config_fields.
  - run. rewrite Hopened, Hbatch, Z.eqb_refl. cbn. rewrite Hpb. reflexivity.
  - eexists. split.
    + rewrite (onInspectorMessage_set_config s1 stale) by assumption.
      cbn. rewrite Hopened. unfold rate_acknowledged, suscan_config_get_value.
      rewrite Hstaler. cbn. rewrite Z.eqb_sym, Hneq. reflexivity.
    + run. rewrite Hbatch, Z.eqb_refl. cbn. rewrite Hpb. reflexivity.
  - eexists. split.
    + rewrite (onInspectorMessage_set_config s1 ack) by assumption.
      cbn. rewrite Hopened. unfold rate_acknowledged, suscan_config_get_value.
      rewrite Hackr. cbn. rewrite Z.eqb_refl. reflexivity.
    + run. rewrite Hbatch, Z.eqb_refl. cbn. rewrite Hpb. reflexivity.
Qed.

(** X11.  [setDemodFreq] with an offset within [1e-8] of the cached one
    does nothing; otherwise it caches the offset and, with the inspector
    open, sends one frequency update to the held handle and no
    configuration write. *)
Theorem setDemodFreq_sends_frequency_only (s : State) (lo : Q) :
  ((Qabs (m_lo s - lo) <= 1 # 100000000)%Q →
     setDemodFreq lo s = Ret tt s [])
  ∧ (¬ (Qabs (m_lo s - lo) <= 1 # 100000000)%Q →
     m_audioInspectorOpened s = false →
     setDemodFreq lo s = Ret tt (set_m_lo lo s) [])
  ∧ (¬ (Qabs (m_lo s - lo) <= 1 # 100000000)%Q →
     m_audioInspectorOpened s = true → is_Some (m_analyzer s) →
     setDemodFreq lo s =
       Ret tt (set_m_lo lo s)
         [AnalyzerSetInspectorFreq (m_audioInspHandle s) lo]).
Proof.
  pose proof (sufeq_true (m_lo s) lo (1 # 100000000)) as Hguard.
  repeat split.
  - intros Hnear. apply Hguard in Hnear. run. by rewrite Hnear.
  - intros Hfar Hinsp. run.
    destruct (sufeq (m_lo s) lo (1 # 100000000));
      [exfalso; by apply Hfar, Hguard |].
    cbn. by rewrite Hinsp.
  - intros Hfar Hinsp [an Han]. run.
    destruct (sufeq (m_lo s) lo (1 # 100000000));
      [exfalso; by apply Hfar, Hguard |].
    cbn. rewrite Hinsp. cbn. by rewrite Han.
Qed.

(** X12.  Doppler correction: switching it off never calls the analyzer;
    an orbit set while it is off is only stored, and is delivered to the
    held handle when the correction is switched on; while it is on, every
    new orbit is delivered at once. *)
Theorem doppler_orbit_delivered_on_enable (s : State) (orbit : Orbit) :
  log_of (setCorrectionEnabled false s) = []
  ∧ (m_correctionEnabled s = false →
     setAudioCorrection orbit s = Ret tt (set_m_orbit orbit s) [])
  ∧ (m_correctionEnabled s = false → m_audioInspectorOpened s = true →
     is_Some (m_analyzer s) →
     (setAudioCorrection orbit;; setCorrectionEnabled true) s =
       Ret tt (set_m_correctionEnabled true (set_m_orbit orbit s))
         [AnalyzerSetInspectorDopplerCorrection (m_audioInspHandle s) orbit])
  ∧ (m_correctionEnabled s = true → m_audioInspectorOpened s = true →
     is_Some (m_analyzer s) →
     setAudioCorrection orbit s =
       Ret tt (set_m_orbit orbit s)
         [AnalyzerSetInspectorDopplerCorrection (m_audioInspHandle s) orbit]).
Proof.
  repeat split.
  - run. by destruct (m_correctionEnabled s).
  - intros Hoff. run. by rewrite Hoff.
  - intros Hoff Hinsp [an Han]. run. rewrite Hoff. cbn.
    rewrite Hoff. cbn. rewrite Hinsp. cbn. by rewrite Han.
  - intros Hon Hinsp [an Han]. run. rewrite Hon, Hinsp. cbn. by rewrite Han.
Qed.

Section ControllerCycles.

Variable bandwidth : Q.

(** [setEnabled (true)] from a disabled, idle controller: the run of
    [openAudio] after [m_enabled] is set. *)
Lemma setEnabled_true_run (env : Env) (s : State) (an : Analyzer) :
  m_enabled s = false → m_opening s = false → m_opened s = false →
  m_analyzer s = Some an → m_playBack s = true → m_tracker s = true →
  let reqRate := openAudio_reqRate bandwidth (m_sampleRate s) in
  let ch := openAudio_channel bandwidth (openAudio_maxFc an) (m_lo s) in
  let accepted := requestOpen env ch in
  setEnabled bandwidth env true s =
    Ret tt
      (set_m_opening accepted
         (set_m_sampleRate (playback_getSampleRate env reqRate)
            (set_m_enabled true s)))
      ([PlaybackSetVolume (m_volume s); PlaybackSetSampleRate reqRate;
        PlaybackStart; TrackerRequestOpen "audio" ch]
       ++ (if accepted then []
           else [EmitAudioError
                   "Internal Suscan error while opening audio inspector";
                 PlaybackStop]))%list.
Proof.
  intros Henabled Hopening Hopened Han Hpb Htr.
  pose proof (openAudio_run bandwidth env (set_m_enabled true s) an
                Han Hopening Hopened Hpb Htr) as Hopen.
  cbn zeta in *.
  unfold setEnabled, when, gets, modify, mbind, M_bind, mret, M_ret. cbn.
  rewrite Henabled. cbn. rewrite Hopened, Hopening. cbn. rewrite Hopen.
  cbn. by destruct (requestOpen env _).
Qed.


(** X13.  Binding another analyzer (or none) while streaming: the old
    analyzer is disconnected, the held inspector closed and playback
    stopped, in this order; the call then stops at the missing [return] of
    [closeAudio], before the new analyzer is stored, the tracker rebound or
    an open request sent. *)
Theorem setAnalyzer_swap_while_streaming
    (env : Env) (s : State) (old : Analyzer) (a : option Analyzer) :
  m_analyzer s = Some old → m_playBack s = true →
  m_opened s = true → m_audioInspectorOpened s = true →
  setAnalyzer bandwidth env a s =
    Abort MissingReturn
      [AnalyzerDisconnect; AnalyzerCloseInspector (m_audioInspHandle s);
       PlaybackStop].
Proof.
  intros Han Hpb Hopened Hinsp. run. use_hyps.
  rewrite orb_true_r. cbn. use_hyps. reflexivity.
Qed.


(** X15.  Disabling during Configuring leaves the inspector marked open,
    so that after enabling again the late acknowledgement of the old
    inspector raises [audioOpened] and sets [m_opened] while the new open
    request is still pending ([m_opening] holds). *)
Theorem reenable_while_configuring_opens_early
    (env : Env) (s : State) (an : Analyzer) (ack : InspectorMessage) :
  m_analyzer s = Some an → m_playBack s = true → m_tracker s = true →
  m_enabled s = true → m_opening s = false → m_opened s = false →
  m_audioInspectorOpened s = true →
  requestOpen env
    (openAudio_channel bandwidth (openAudio_maxFc an) (m_lo s)) = true →
  msg_getInspectorId ack = m_audioInspId s →
  msg_getKind ack = SUSCAN_ANALYZER_INSPECTOR_MSGKIND_SET_CONFIG →
  ∃ s',
    reenable_while_configuring bandwidth env ack s =
      Ret tt s'
        [PlaybackSetVolume (m_volume s);
         PlaybackSetSampleRate (openAudio_reqRate bandwidth (m_sampleRate s));
         PlaybackStart;
         TrackerRequestOpen "audio"
           (openAudio_channel bandwidth (openAudio_maxFc an) (m_lo s));
         EmitAudioOpened]
    ∧ m_opening s' = true ∧ m_opened s' = true
    ∧ m_audioInspHandle s' = m_audioInspHandle s.
Proof.
  intros Han Hpb Htr Henabled Hopening Hopened Hinsp Haccept Hid Hkind.
  pose proof (setEnabled_same bandwidth env s true Henabled) as H0.
  assert (H1 : setEnabled bandwidth env false s
               = Ret tt (set_m_enabled false s) []).
  { unfold setEnabled, when, gets, modify, mbind, M_bind, mret, M_ret. cbn.
    rewrite Henabled. cbn. by rewrite Hopened, Hopening. }
  pose proof (setEnabled_true_run env (set_m_enabled false s) an
                eq_refl Hopening Hopened Han Hpb Htr) as H2.
  cbn zeta in H2.
  change (m_lo (set_m_enabled false s)) with (m_lo s) in H2.
  rewrite Haccept in H2.
  match type of H2 with _ = Ret tt ?s2 _ =>
    pose proof (onInspectorMessage_set_config s2 ack Hinsp Hid Hkind) as H3
  end.
  eexists. split.
  - unfold reenable_while_configuring.
    rewrite (run_seq _ _ _ _ _ _ _ _ _ H1
               (run_seq _ _ _ _ _ _ _ _ _ H2 H3)).
    change (m_opened _) with (m_opened s). rewrite Hopened. reflexivity.
  - repeat match goal with |- _ ∧ _ => split end; reflexivity.
Qed.

End ControllerCycles.

(** X16.  Whatever the state and the collaborators' answers, one call of
    the controller raises at most one notification ([audioOpened] or
    [audioError]) and sends at most one open request. *)
Theorem call_notifications_at_most_once
    (bandwidth : Q) (env : Env) (c : Call) (s : State) :
  (count is_audioOpened (log_of (call bandwidth env c s))
   + count is_audioError (log_of (call bandwidth env c s)) ≤ 1)%nat
  ∧ (count is_requestOpen (log_of (call bandwidth env c s)) ≤ 1)%nat.
Proof.
  destruct c as [| | [a |] | [|] | | | | | | | | | | | | | |];
    cbn; run; repeat split_test; cbn; lia.
Qed.

(** X17.  Every configuration, frequency or Doppler update made by a call
    that returns goes to the handle the controller holds when the call
    returns, and the inspector is marked open then. *)
Theorem remote_updates_target_open_inspector
    (bandwidth : Q) (env : Env) (c : Call) (s s' : State)
    (log : list Effect) :
  call bandwidth env c s = Ret tt s' log →
  Forall (targets_open_inspector s') log.
Proof.
  intros Hrun.
  destruct c as [| | [a |] | [|] | | | | | | | | | | | | | |];
    cbn in Hrun; run_in Hrun; repeat split_test_in Hrun;
    try discriminate Hrun; injection Hrun as <- <-;
    split_andb;
    repeat first
      [ apply Forall_nil_2
      | apply Forall_cons_2; [cbn; first [exact I | split; congruence] |] ].
Qed.

Lemma mirrors_cache_setParams_config (tmpl : Config) (s s' : State) (h : Z) :
  m_cutOff s = m_cutOff s' → m_sampleRate s = m_sampleRate s' →
  m_squelch s = m_squelch s' → m_squelchLevel s = m_squelchLevel s' →
  mirrors_cache s' (AnalyzerSetInspectorConfig h (setParams_config tmpl s)).
Proof.
  intros Hcut Hrate Hsq Hlevel. unfold mirrors_cache.
  rewrite <- Hcut, <- Hrate, <- Hsq, <- Hlevel.
  apply setParams_config_fields.
Qed.

(** X18.  Every configuration write made by a call that returns carries
    the cutoff, sample rate, squelch flag and squelch level cached when
    the call returns, and volume 1. *)
Theorem configuration_writes_mirror_cache
    (bandwidth : Q) (env : Env) (c : Call) (s s' : State)
    (log : list Effect) :
  call bandwidth env c s = Ret tt s' log →
  Forall (mirrors_cache s') log.
Proof.
  intros Hrun.
  destruct c as [| | [a |] | [|] | | | | | | | | | | | | | |];
    cbn in Hrun; run_in Hrun; repeat split_test_in Hrun;
    try discriminate Hrun; injection Hrun as <- <-;
    repeat first
      [ apply Forall_nil_2
      | apply Forall_cons_2;
        [first [exact I
               | apply mirrors_cache_setParams_config; reflexivity] |] ].
Qed.

Lemma call_keeps_opened_holds_inspector
    (bandwidth : Q) (env : Env) (c : Call) (s s' : State)
    (log : list Effect) :
  opened_holds_inspector s →
  call bandwidth env c s = Ret tt s' log →
  opened_holds_inspector s'.
Proof.
  unfold opened_holds_inspector. intros Hinv Hrun.
  destruct (m_opened s) eqn:Hopened;
    [specialize (Hinv eq_refl) | clear Hinv];
    destruct c as [| | [a |] | [|] | | | | | | | | | | | | | |];
    cbn in Hrun; run_in Hrun; use_hyps_in Hrun; repeat split_test_in Hrun;
    try discriminate Hrun; injection Hrun as <- <-; cbn;
    split_andb;
    congruence.
Qed.

(** X19.  "Opened implies an inspector is held" is an invariant: it
    survives every sequence of calls that returns, whatever the
    collaborators answer. *)
Theorem run_calls_keeps_opened_holds_inspector
    (bandwidth : Q) (cs : list (Env * Call)) (s s' : State)
    (log : list Effect) :
  opened_holds_inspector s →
  run_calls bandwidth cs s = Ret tt s' log →
  opened_holds_inspector s'.
Proof.
  revert s log. induction cs as [| [env c] cs IH]; intros s log Hinv Hrun.
  - injection Hrun as <- <-. exact Hinv.
  - cbn in Hrun. unfold mbind, M_bind in Hrun.
    destruct (call bandwidth env c s) as [[] s1 l1 | f l1] eqn:Hcall;
      [| discriminate Hrun].
    destruct (run_calls bandwidth cs s1) as [[] s2 l2 | f l2] eqn:Hrest;
      [| discriminate Hrun].
    injection Hrun as <- <-.
    eapply IH; [| exact Hrest].
    eapply call_keeps_opened_holds_inspector; eassumption.
Qed.


(** * SigDiggerHelpers.cpp *)

(** ** Palettes *)

(** The search either runs off the end, no palette bearing the name, or
    stops at the first palette that bears it. *)
Lemma getPaletteIndex_from_spec (palettes : list Palette) (name : string)
    (i : Z) :
  (getPaletteIndex_from i palettes name = -1
   ∧ Forall (λ p, getName p ≠ name) palettes)
  ∨ (∃ k p,
       getPaletteIndex_from i palettes name = i + Z.of_nat k
       ∧ palettes !! k = Some p ∧ getName p = name
       ∧ Forall (λ q, getName q ≠ name) (take k palettes)).
Proof.
  revert i. induction palettes as [| p palettes IH]; intros i; cbn.
  - left. split; [reflexivity | constructor].
  - destruct (String.eqb_spec (getName p) name) as [Heq | Hne].
    + right. exists 0%nat, p. rewrite Z.add_0_r. repeat split; done.
    + destruct (IH (i + 1))
        as [[Hnone Hall] | (k & q & Hidx & Hq & Hname & Hbefore)].
      * left. split; [exact Hnone | by constructor].
      * right. exists (S k), q. repeat split; try done.
        -- rewrite Hidx. lia.
        -- cbn. by constructor.
Qed.

(** X20.  [getPaletteIndex] returns [-1] exactly when no palette bears the
    name; otherwise it returns the position of the first palette that
    bears it. *)
Theorem getPaletteIndex_first_match
    (palettes : list Palette) (name : string) :
  (getPaletteIndex palettes name = -1 ↔
     Forall (λ p, getName p ≠ name) palettes)
  ∧ (getPaletteIndex palettes name ≠ -1 →
     ∃ k p,
       getPaletteIndex palettes name = Z.of_nat k
       ∧ palettes !! k = Some p ∧ getName p = name
       ∧ Forall (λ q, getName q ≠ name) (take k palettes)).
Proof.
  unfold getPaletteIndex.
  destruct (getPaletteIndex_from_spec palettes name 0)
    as [[Hnone Hall] | (k & p & Hidx & Hp & Hname & Hbefore)].
  - split; [by split | intros Hne; by destruct Hne].
  - split.
    + split; [intros Hnone; rewrite Hidx in Hnone; lia |].
      intros Hall. exfalso.
      rewrite Forall_forall in Hall.
      apply (Hall p); [by eapply list_elem_of_lookup_2 | exact Hname].
    + intros _. exists k, p. by rewrite Hidx.
Qed.

(** X21.  Looking a palette up by name is looking it up by the index
    [getPaletteIndex] gives: the palette found bears the name, and null
    comes back exactly when no palette bears it. *)
Theorem getPalette_by_name_agrees
    (palettes : list Palette) (name : string) :
  getPalette_by_name palettes name
    = getPalette palettes (getPaletteIndex palettes name)
  ∧ (∀ p, getPalette_by_name palettes name = Some p → getName p = name)
  ∧ (getPalette_by_name palettes name = None ↔
       Forall (λ p, getName p ≠ name) palettes).
Proof.
  unfold getPalette_by_name, getPalette, getPaletteIndex. cbv zeta.
  destruct (getPaletteIndex_from_spec palettes name 0)
    as [[Hnone Hall] | (k & p & Hidx & Hp & Hname & Hbefore)].
  - rewrite Hnone. cbn. repeat split; try done.
  - rewrite Hidx, Z.add_0_l.
    pose proof (lookup_lt_Some _ _ _ Hp) as Hlt.
    rewrite !Z.geb_leb.
    replace (0 <=? Z.of_nat k)%Z with true
      by (symmetry; apply Z.leb_le; lia).
    replace (Z.of_nat k <? 0)%Z with false
      by (symmetry; apply Z.ltb_ge; lia).
    replace (Z.of_nat (length palettes) <=? Z.of_nat k)%Z with false
      by (symmetry; apply Z.leb_gt; lia).
    cbn [orb]. rewrite Nat2Z.id, Hp. repeat split; try done.
    + by intros q [= <-].
    + intros Hall. exfalso. rewrite Forall_forall in Hall.
      apply (Hall p); [by eapply list_elem_of_lookup_2 | exact Hname].
Qed.

(** X22.  [getPalette (index)] is null exactly when the index is negative
    or not below the number of palettes. *)
Theorem getPalette_null_iff_out_of_range
    (palettes : list Palette) (index : Z) :
  getPalette palettes index = None ↔
    (index < 0 ∨ Z.of_nat (length palettes) ≤ index)%Z.
Proof.
  unfold getPalette.
  destruct (Z.ltb_spec index 0) as [Hneg | Hpos]; cbn.
  - split; [by left | done].
  - rewrite Z.geb_leb.
    destruct (Z.leb_spec (Z.of_nat (length palettes)) index) as [Hge | Hlt].
    + split; [intros _; right; lia | done].
    + split.
      * intros Hnone. apply lookup_ge_None in Hnone. lia.
      * intros [? | ?]; lia.
Qed.

(** From a position that is not negative, the search gives [-1] only when
    it runs off the end. *)
Lemma getPaletteIndex_from_none (palettes : list Palette) (name : string)
    (i : Z) :
  (0 ≤ i)%Z →
  getPaletteIndex_from i palettes name = -1 ↔
    Forall (λ p, getName p ≠ name) palettes.
Proof.
  intros Hi.
  destruct (getPaletteIndex_from_spec palettes name i)
    as [[Hnone Hall] | (k & p & Hidx & Hp & Hname & Hbefore)].
  - by split.
  - split; [intros Hnone; rewrite Hidx in Hnone; lia |].
    intros Hall. exfalso. rewrite Forall_forall in Hall.
    apply (Hall p); [by eapply list_elem_of_lookup_2 | exact Hname].
Qed.

(** The search through two lists in a row. *)
Lemma getPaletteIndex_from_app (l1 l2 : list Palette) (name : string)
    (i : Z) :
  getPaletteIndex_from i (l1 ++ l2)%list name =
    if decide (Forall (λ p, getName p ≠ name) l1)
    then getPaletteIndex_from (i + Z.of_nat (length l1)) l2 name
    else getPaletteIndex_from i l1 name.
Proof.
  revert i. induction l1 as [| p l1 IH]; intros i.
  - cbn. rewrite Z.add_0_r. by destruct (decide _) as [_ | []].
  - cbn [app getPaletteIndex_from].
    destruct (String.eqb_spec (getName p) name) as [Heq | Hne].
    + destruct (decide (Forall _ (p :: l1))) as [Hall | _]; [| reflexivity].
      by apply Forall_inv in Hall.
    + rewrite IH.
      replace (i + Z.of_nat (length (p :: l1)))
        with (i + 1 + Z.of_nat (length l1)) by (cbn [length]; lia).
      destruct (decide (Forall _ l1)) as [Hall | Hnall];
        destruct (decide (Forall _ (p :: l1))) as [Hall' | Hnall'];
        try reflexivity.
      * exfalso. apply Hnall'. by constructor.
      * exfalso. apply Hnall. by apply Forall_inv_tail in Hall'.
Qed.

(** X23.  After [deserializePalettes] on an empty list, "Suscan" and
    "Gqrx" are found at positions 0 and 1 whatever palettes the singleton
    holds; running it again appends the singleton's palettes once more and
    leaves every lookup by name where it was. *)
Theorem deserializePalettes_lookups
    (wf_gradient : list (Q * Q * Q)) (singleton : list Palette) :
  let first := deserializePalettes wf_gradient singleton [] in
  let again := deserializePalettes wf_gradient singleton first in
  getPaletteIndex first "Suscan" = 0
  ∧ getPaletteIndex first "Gqrx" = 1
  ∧ length again = (length first + length singleton)%nat
  ∧ ∀ name, getPaletteIndex again name = getPaletteIndex first name.
Proof.
  cbn zeta. split; [reflexivity | split; [reflexivity | split]].
  - unfold deserializePalettes. cbn. rewrite !length_app. cbn. lia.
  - intros name. unfold deserializePalettes at 1.
    set (first := deserializePalettes wf_gradient singleton []).
    assert (Hfirst : first
              = ([ {| getName := "Suscan"; getGradient := wf_gradient |};
                  getGqrxPalette ] ++ singleton)%list) by reflexivity.
    replace (length first =? 0)%nat with false by (by rewrite Hfirst).
    unfold getPaletteIndex. rewrite getPaletteIndex_from_app.
    destruct (decide _) as [Hall | _]; [| reflexivity].
    rewrite (proj2 (getPaletteIndex_from_none first name 0 ltac:(lia)) Hall).
    apply getPaletteIndex_from_none; [lia |].
    rewrite Hfirst in Hall. by apply Forall_app in Hall as [_ ?].
Qed.

(** ** Limits of a capture *)

(** What a minimum accumulator holds after one more sample. *)
Lemma min_of_step (f : SUCOMPLEX → Q) (seen : list SUCOMPLEX) (l : Limit)
    (z : SUCOMPLEX) :
  min_of f seen l →
  min_of f (seen ++ [z])%list (if SUFLOAT_lt (f z) l then LimitAt (f z) else l).
Proof.
  destruct l as [| lo |]; cbn; [done | |].
  - intros [Hlow (w & Hw & Hfw)].
    destruct (Qle_bool lo (f z)) eqn:Hcmp; cbn.
    + apply Qle_bool_iff in Hcmp. split.
      * intros x [Hx | ->%list_elem_of_singleton]%elem_of_app; auto.
      * exists w. split; [apply elem_of_app; by left | done].
    + assert (Hlt : (f z < lo)%Q).
      { apply Qnot_le_lt. intros Hle. apply Qle_bool_iff in Hle. congruence. }
      split.
      * intros x [Hx | ->%list_elem_of_singleton]%elem_of_app.
        -- apply Qlt_le_weak. eapply Qlt_le_trans; [exact Hlt | auto].
        -- apply Qle_refl.
      * exists z. split; [apply elem_of_app; right; by constructor | done].
  - intros ->. cbn. split.
    + intros x ->%list_elem_of_singleton. apply Qle_refl.
    + exists z. split; [by constructor | done].
Qed.

(** What a maximum accumulator holds after one more sample. *)
Lemma max_of_step (f : SUCOMPLEX → Q) (seen : list SUCOMPLEX) (l : Limit)
    (z : SUCOMPLEX) :
  max_of f seen l →
  max_of f (seen ++ [z])%list (if SUFLOAT_gt (f z) l then LimitAt (f z) else l).
Proof.
  destruct l as [| hi |]; cbn; [| | done].
  - intros ->. cbn. split.
    + intros x ->%list_elem_of_singleton. apply Qle_refl.
    + exists z. split; [by constructor | done].
  - intros [Hup (w & Hw & Hfw)].
    destruct (Qle_bool (f z) hi) eqn:Hcmp; cbn.
    + apply Qle_bool_iff in Hcmp. split.
      * intros x [Hx | ->%list_elem_of_singleton]%elem_of_app; auto.
      * exists w. split; [apply elem_of_app; by left | done].
    + assert (Hlt : (hi < f z)%Q).
      { apply Qnot_le_lt. intros Hle. apply Qle_bool_iff in Hle. congruence. }
      split.
      * intros x [Hx | ->%list_elem_of_singleton]%elem_of_app.
        -- apply Qlt_le_weak. eapply Qle_lt_trans; [| exact Hlt]. auto.
        -- apply Qle_refl.
      * exists z. split; [apply elem_of_app; right; by constructor | done].
Qed.

(** The loop of [calcLimits] keeps its accumulators at the extremes of the
    samples seen. *)
Lemma calcLimits_loop_invariant (data seen : list SUCOMPLEX) (acc : Limits) :
  min_of fst seen (minReal acc) → max_of fst seen (maxReal acc) →
  min_of snd seen (minImag acc) → max_of snd seen (maxImag acc) →
  let acc' := fold_left calcLimits_step data acc in
  min_of fst (seen ++ data)%list (minReal acc')
  ∧ max_of fst (seen ++ data)%list (maxReal acc')
  ∧ min_of snd (seen ++ data)%list (minImag acc')
  ∧ max_of snd (seen ++ data)%list (maxImag acc').
Proof.
  revert seen acc. induction data as [| z data IH]; intros seen acc H1 H2 H3 H4.
  - cbn. by rewrite app_nil_r.
  - cbn [fold_left].
    replace (seen ++ z :: data)%list with ((seen ++ [z]) ++ data)%list
      by (by rewrite <- app_assoc).
    apply IH; cbn.
    + by apply min_of_step.
    + by apply max_of_step.
    + by apply (min_of_step snd).
    + by apply (max_of_step snd).
Qed.

(** X25.  For a capture that is not empty, [calcLimits] stores finite
    limits: the real and imaginary parts of [oMin] and [oMax] bound those
    of every sample, and each of the four is the part of some sample. *)
Theorem calcLimits_bounds (data : list SUCOMPLEX) :
  data ≠ [] →
  ∃ lo hi,
    calcLimits data = (Some lo, Some hi)
    ∧ is_min fst data (fst lo) ∧ is_max fst data (fst hi)
    ∧ is_min snd data (snd lo) ∧ is_max snd data (snd hi).
Proof.
  intros Hne.
  destruct (calcLimits_loop_invariant data []
              {| minReal := LimitPosInf; maxReal := LimitNegInf;
                 minImag := LimitPosInf; maxImag := LimitNegInf |}
              eq_refl eq_refl eq_refl eq_refl) as (H1 & H2 & H3 & H4).
  cbn [app] in *. unfold calcLimits. fold (calcLimits_loop data) in *.
  destruct (calcLimits_loop data) as [a b c d]. cbn in *.
  destruct a as [| a |]; cbn in H1; try done.
  destruct b as [| b |]; cbn in H2; try done.
  destruct c as [| c |]; cbn in H3; try done.
  destruct d as [| d |]; cbn in H4; try done.
  exists (a, c), (b, d). auto.
Qed.

(** ** The Gqrx palette *)

(** X24.  Every component of every colour of the Gqrx palette lies
    between 0 and 1, and its first twenty colours are black. *)
Theorem getGqrxPalette_colors_in_range (i : Z) :
  (0 ≤ i < 256)%Z →
  let '(r, g, b) := getGqrxPalette_color i in
  (0 <= r <= 1)%Q ∧ (0 <= g <= 1)%Q ∧ (0 <= b <= 1)%Q
  ∧ ((i < 20)%Z → (r, g, b) = (0, 0, 0)%Q).
Proof.
  intros Hi.
  assert (Hall : forallb unit_color getGqrxPalette_table = true)
    by (vm_compute; reflexivity).
  rewrite forallb_forall in Hall.
  specialize (Hall (getGqrxPalette_color i)).
  destruct (getGqrxPalette_color i) as [[r g] b] eqn:Hcolor.
  unfold unit_color, unit_component in Hall.
  rewrite !andb_true_iff, !Qle_bool_iff in Hall.
  destruct Hall as [[Hr Hg] Hb].
  { apply in_map_iff. exists i. split; [exact Hcolor |].
    apply list_elem_of_In, elem_of_seqZ. lia. }
  repeat split; try tauto.
  intros Hblack. rewrite <- Hcolor. unfold getGqrxPalette_color.
  by replace (i <? 20)%Z with true by (symmetry; apply Z.ltb_lt; lia).
Qed.

(** ** The sample range of an export *)

(** X26.  The loop of [exportToMatlab] and [exportToMat5] reads [data[i]]
    exactly for the [i] of the selection [start..end], both included, that
    are indices of the capture: never outside [0..length). *)
Theorem exportToMatlab_reads_in_bounds (length start end_ : Z) :
  (∀ i, i ∈ exportToMatlab_indices length start end_ ↔
        (0 ≤ i < length ∧ start ≤ i ≤ end_)%Z)
  ∧ Z.of_nat (List.length (exportToMatlab_indices length start end_))
    = Z.max 0 (Z.min end_ (length - 1) - Z.max start 0 + 1).
Proof.
  unfold exportToMatlab_indices, exportToMatlab_range.
  rewrite Z.geb_leb.
  destruct (Z.ltb_spec start 0), (Z.leb_spec length end_); split;
    try (intros i; rewrite elem_of_seqZ; lia); rewrite length_seqZ; lia.
Qed.

(** X27.  [exportToWav], for a capture length and an end that are not
    negative: the block handed to [sf_write_float] starts at an index that
    is not negative and ends within the capture; its sample count is
    negative exactly when the selection starts beyond its end; and for a
    selection inside the capture it holds the samples [start..end-1], one
    fewer than [exportToMatlab] writes for the same selection. *)
Theorem exportToWav_range_in_bounds (length start end_ : Z) :
  (0 ≤ length)%Z → (0 ≤ end_)%Z →
  let '(offset, count) := exportToWav_range length start end_ in
  (0 ≤ offset)%Z ∧ (offset + count ≤ length)%Z
  ∧ ((count < 0)%Z ↔ (Z.min end_ length < Z.max start 0)%Z)
  ∧ ((0 ≤ start)%Z → (start ≤ end_)%Z → (end_ < length)%Z →
     offset = start ∧ count = end_ - start
     ∧ Z.of_nat (List.length (exportToMatlab_indices length start end_))
       = count + 1).
Proof.
  intros Hlen Hend.
  unfold exportToWav_range, exportToMatlab_indices, exportToMatlab_range.
  rewrite Z.gtb_ltb, Z.geb_leb.
  destruct (Z.ltb_spec start 0), (Z.ltb_spec length end_),
    (Z.leb_spec length end_); repeat split; try lia;
    intros; rewrite ?length_seqZ; lia.
Qed.

(** * The further properties at concrete inputs *)

(** Closing [streaming0]. *)
Lemma closeAudio_releases_then_idles_witness :
  ∃ s',
    closeAudio_body streaming0 =
      Ret tt s' [AnalyzerCloseInspector 3; PlaybackStop]
    ∧ m_opening s' = false ∧ m_opened s' = false
    ∧ m_audioInspectorOpened s' = false
    ∧ closeAudio streaming0 =
        Abort MissingReturn [AnalyzerCloseInspector 3; PlaybackStop].
Proof.
  exact (closeAudio_releases_then_idles streaming0 analyzer0
           eq_refl eq_refl eq_refl eq_refl).
Defined.

(** The tracker opens inspector 7 for [requesting0]. *)
Lemma onOpened_with_template_held_witness :
  (∃ s', onOpened true req0 template0 requesting0 =
           Ret tt s' [AnalyzerSetInspectorConfig 3
                        (setParams_config template0 requesting0)]
         ∧ m_audioInspectorOpened s' = true)
  ∧ (∃ s', onOpened false req0 template0 requesting0 =
             Ret tt s'
               [AnalyzerCloseInspector 3;
                EmitAudioError "Failed to duplicate audio configuration"]
           ∧ m_audioInspectorOpened s' = false).
Proof.
  destruct (onOpened_with_template_held requesting0 analyzer0 template0
              req0 template0 eq_refl eq_refl)
    as [(s1 & Hrun1 & _ & _ & Hinsp1 & _) (s2 & Hrun2 & _ & Hinsp2 & _)].
  split; [exists s1 | exists s2]; split; assumption.
Defined.

(** [setParams] while streaming. *)
Lemma setParams_writes_cache_over_template_witness :
  ∃ cfg,
    setParams streaming0 =
      Ret tt streaming0 [AnalyzerSetInspectorConfig 3 cfg]
    ∧ cfg !! "audio.cutoff" = Some (FFloat 15000%Q)
    ∧ cfg !! "audio.volume" = Some (FFloat 1%Q).
Proof.
  destruct (setParams_writes_cache_over_template streaming0 analyzer0
              template0 eq_refl eq_refl eq_refl)
    as (cfg & Hrun & Hcut & Hvol & _).
  exists cfg. auto.
Defined.

(** [openAudio] with a request pending and with the channel opened. *)
Lemma openAudio_while_busy_witness :
  openAudio 200000 env_ok requesting0 = Ret true requesting0 []
  ∧ openAudio 200000 env_ok streaming0 = Ret false streaming0 [].
Proof.
  split.
  - exact (proj1 (openAudio_while_busy 200000 env_ok requesting0
                    (ex_intro _ analyzer0 eq_refl)) eq_refl).
  - exact (proj2 (openAudio_while_busy 200000 env_ok streaming0
                    (ex_intro _ analyzer0 eq_refl)) eq_refl eq_refl).
Defined.

(** A cached rate of 44100 against an audio bandwidth of 8000. *)
Lemma openAudio_requested_rate_capped_witness :
  ∃ rate accepted s' log,
    openAudio 8000 env_ok idle0 = Ret accepted s' log
    ∧ PlaybackSetSampleRate rate ∈ log
    ∧ (inject_Z rate <= 8000)%Q
    ∧ (rate ≤ 44100)%Z.
Proof.
  destruct (openAudio_requested_rate_capped 8000 env_ok idle0 analyzer0
              eq_refl eq_refl eq_refl eq_refl eq_refl)
    as (rate & accepted & s' & log & Hrun & Hin & Hcap & Hle & _).
  exists rate, accepted, s', log. auto.
Defined.

(** Enabling [idle0] twice. *)
Lemma setEnabled_idempotent_witness :
  setEnabled 200000 env_ok true requesting0 = Ret tt requesting0 [].
Proof.
  exact (setEnabled_idempotent 200000 env_ok env_ok true idle0 requesting0
           _ eq_refl).
Defined.

(** [idle0] with its analyzer taken away. *)
Lemma calls_without_analyzer_witness :
  setEnabled 200000 env_ok true (set_m_analyzer None idle0)
    = Abort AssertionFailed []
  ∧ onOpened true req0 template0 (set_m_analyzer None requesting0)
    = Ret tt (set_m_opening false (set_m_analyzer None requesting0)) [].
Proof.
  destruct (calls_without_analyzer 200000 env_ok (set_m_analyzer None idle0)
              eq_refl) as (_ & _ & Henable & _).
  destruct (calls_without_analyzer 200000 env_ok
              (set_m_analyzer None requesting0) eq_refl)
    as (_ & _ & _ & Hopened).
  split; [exact (Henable eq_refl eq_refl eq_refl) | apply Hopened].
Defined.

(** An acknowledgement while no inspector is held, a wrong-state message
    while streaming. *)
Lemma inspector_message_ignored_witness :
  onInspectorMessage (ack0 ∅) idle0 = Ret tt idle0 []
  ∧ onInspectorMessage wrong0 streaming0 = Ret tt streaming0 [].
Proof.
  split.
  - exact (inspector_message_ignored idle0 (ack0 ∅) (or_introl eq_refl)).
  - exact (inspector_message_ignored streaming0 wrong0
             (or_intror (or_intror (or_intror (conj eq_refl eq_refl))))).
Defined.

(** A wrong-handle message during Configuring. *)
Lemma wrong_state_before_opened_witness :
  closeAudio_body configuring0 =
    Ret tt (set_m_audioInspectorOpened false
             (set_m_opened false (set_m_opening false configuring0))) []
  ∧ onInspectorMessage wrong0 configuring0 = Abort MissingReturn [].
Proof.
  exact (wrong_state_before_opened configuring0 wrong0
           eq_refl eq_refl eq_refl eq_refl eq_refl
           (ex_intro _ analyzer0 eq_refl)).
Defined.

(** From 44100 to 8000 while streaming. *)
Lemma rate_change_silences_until_acknowledged_witness :
  ∃ s1 cfg,
    setSampleRate 8000 streaming0 =
      Ret tt s1 [PlaybackSetSampleRate 8000; AnalyzerSetInspectorConfig 3 cfg]
    ∧ onInspectorSamples batch0 s1 =
        Ret tt s1 [PlaybackWrite (replicate 3 SUCOMPLEX_zero) 3]
    ∧ ∃ s2,
        onInspectorMessage (ack0 {["audio.sample-rate" := FInt 8000]}) s1
          = Ret tt s2 []
        ∧ onInspectorSamples batch0 s2 =
            Ret tt s2 [PlaybackWrite (smp_getSamples batch0) 3].
Proof.
  destruct (rate_change_silences_until_acknowledged streaming0 analyzer0
              template0 8000 batch0
              (ack0 {["audio.sample-rate" := FInt 8000]})
              (ack0 {["audio.sample-rate" := FInt 44100]})
              eq_refl eq_refl eq_refl eq_refl eq_refl ltac:(discriminate)
              eq_refl eq_refl eq_refl eq_refl eq_refl eq_refl eq_refl)
    as (s1 & cfg & Hset & _ & Hsilent & _ & Hack).
  exists s1, cfg. auto.
Defined.

(** An offset of 1000 on [idle0] and on [streaming0]; the same offset
    again. *)
Lemma setDemodFreq_sends_frequency_only_witness :
  setDemodFreq 0 streaming0 = Ret tt streaming0 []
  ∧ setDemodFreq 1000 idle0 = Ret tt (set_m_lo 1000 idle0) []
  ∧ setDemodFreq 1000 streaming0 =
      Ret tt (set_m_lo 1000 streaming0) [AnalyzerSetInspectorFreq 3 1000].
Proof.
  destruct (setDemodFreq_sends_frequency_only streaming0 0) as (Hsame & _).
  destruct (setDemodFreq_sends_frequency_only idle0 1000)
    as (_ & Hcache & _).
  destruct (setDemodFreq_sends_frequency_only streaming0 1000)
    as (_ & _ & Hsend).
  split; [| split].
  - apply Hsame. discriminate.
  - apply Hcache; [| reflexivity]. intros Hnear. by apply Hnear.
  - apply Hsend; [| reflexivity | by exists analyzer0].
    intros Hnear. by apply Hnear.
Defined.

(** An orbit set on [streaming0], where the correction is off. *)
Lemma doppler_orbit_delivered_on_enable_witness :
  setAudioCorrection (OrbitData 5) streaming0 =
    Ret tt (set_m_orbit (OrbitData 5) streaming0) []
  ∧ (setAudioCorrection (OrbitData 5);; setCorrectionEnabled true) streaming0 =
      Ret tt (set_m_correctionEnabled true
                (set_m_orbit (OrbitData 5) streaming0))
        [AnalyzerSetInspectorDopplerCorrection 3 (OrbitData 5)].
Proof.
  destruct (doppler_orbit_delivered_on_enable streaming0 (OrbitData 5))
    as (_ & Hstore & Hdeliver & _).
  split.
  - exact (Hstore eq_refl).
  - exact (Hdeliver eq_refl eq_refl (ex_intro _ analyzer0 eq_refl)).
Defined.

(** Unbinding the analyzer of [streaming0]. *)
Lemma setAnalyzer_swap_while_streaming_witness :
  setAnalyzer 200000 env_ok None streaming0 =
    Abort MissingReturn
      [AnalyzerDisconnect; AnalyzerCloseInspector 3; PlaybackStop].
Proof.
  exact (setAnalyzer_swap_while_streaming 200000 env_ok streaming0
           analyzer0 None eq_refl eq_refl eq_refl eq_refl).
Defined.


(** Disabling and enabling [configuring0] before its acknowledgement. *)
Lemma reenable_while_configuring_opens_early_witness :
  ∃ s',
    reenable_while_configuring 200000 env_ok (ack0 ∅) configuring0 =
      Ret tt s'
        [PlaybackSetVolume (1 # 2);
         PlaybackSetSampleRate (openAudio_reqRate 200000 44100);
         PlaybackStart;
         TrackerRequestOpen "audio"
           (openAudio_channel 200000 (openAudio_maxFc analyzer0) 0);
         EmitAudioOpened]
    ∧ m_opening s' = true ∧ m_opened s' = true
    ∧ m_audioInspHandle s' = 3.
Proof.
  exact (reenable_while_configuring_opens_early 200000 env_ok configuring0
           analyzer0 (ack0 ∅)
           eq_refl eq_refl eq_refl eq_refl eq_refl eq_refl eq_refl
           eq_refl eq_refl eq_refl).
Defined.

(** Switching the squelch on while streaming. *)
Lemma remote_updates_target_open_inspector_witness :
  Forall (targets_open_inspector (set_m_squelch true streaming0))
    [AnalyzerSetInspectorConfig 3
       (setParams_config template0 (set_m_squelch true streaming0))].
Proof.
  exact (remote_updates_target_open_inspector 200000 env_ok
           (CallSetSquelchEnabled true) streaming0
           (set_m_squelch true streaming0)
           [AnalyzerSetInspectorConfig 3
              (setParams_config template0 (set_m_squelch true streaming0))]
           eq_refl).
Defined.

(** The same write against the cache. *)
Lemma configuration_writes_mirror_cache_witness :
  Forall (mirrors_cache (set_m_squelch true streaming0))
    [AnalyzerSetInspectorConfig 3
       (setParams_config template0 (set_m_squelch true streaming0))].
Proof.
  exact (configuration_writes_mirror_cache 200000 env_ok
           (CallSetSquelchEnabled true) streaming0
           (set_m_squelch true streaming0)
           [AnalyzerSetInspectorConfig 3
              (setParams_config template0 (set_m_squelch true streaming0))]
           eq_refl).
Defined.

(** Enable, tracker "opened", acknowledgement: from [idle0] to
    [streaming0]. *)
Lemma run_calls_keeps_opened_holds_inspector_witness :
  m_opened streaming0 = true ∧ opened_holds_inspector streaming0.
Proof.
  split; [reflexivity |].
  apply (run_calls_keeps_opened_holds_inspector 200000
           [(env_ok, CallSetEnabled true);
            (env_ok, CallOnOpened true req0 template0);
            (env_ok, CallOnInspectorMessage (ack0 ∅))]
           idle0 streaming0
           [PlaybackSetVolume (1 # 2); PlaybackSetSampleRate 44100;
            PlaybackStart;
            TrackerRequestOpen "audio" (openAudio_channel 200000 125000 0);
            AnalyzerSetInspectorConfig 3
              (setParams_config template0 streaming0);
            EmitAudioOpened]).
  - discriminate.
  - vm_compute. reflexivity.
Defined.

(** "Magma" is found at its first position, 1. *)
Lemma getPaletteIndex_first_match_witness :
  ∃ k p,
    getPaletteIndex palettes0 "Magma" = Z.of_nat k
    ∧ palettes0 !! k = Some p ∧ getName p = "Magma"
    ∧ Forall (λ q, getName q ≠ "Magma") (take k palettes0).
Proof.
  exact (proj2 (getPaletteIndex_first_match palettes0 "Magma")
           ltac:(discriminate)).
Defined.

(** "Magma" by name gives the first palette of that name. *)
Lemma getPalette_by_name_agrees_witness :
  getPalette_by_name palettes0 "Magma"
    = Some {| getName := "Magma"; getGradient := [(1, 0, 0)%Q] |}
  ∧ getName {| getName := "Magma"; getGradient := [(1, 0, 0)%Q] |} = "Magma".
Proof.
  destruct (getPalette_by_name_agrees palettes0 "Magma") as (_ & Hname & _).
  split; [reflexivity | exact (Hname _ eq_refl)].
Defined.

(** Colour 120 of the Gqrx palette. *)
Lemma getGqrxPalette_colors_in_range_witness :
  let '(r, g, b) := getGqrxPalette_color 120 in
  (0 <= r <= 1)%Q ∧ (0 <= g <= 1)%Q ∧ (0 <= b <= 1)%Q
  ∧ ((120 < 20)%Z → (r, g, b) = (0, 0, 0)%Q).
Proof.
  exact (getGqrxPalette_colors_in_range 120 ltac:(lia)).
Defined.

(** The limits of the three samples of [batch0]. *)
Lemma calcLimits_bounds_witness :
  ∃ lo hi,
    calcLimits (smp_getSamples batch0) = (Some lo, Some hi)
    ∧ is_min fst (smp_getSamples batch0) (fst lo)
    ∧ is_max fst (smp_getSamples batch0) (fst hi)
    ∧ is_min snd (smp_getSamples batch0) (snd lo)
    ∧ is_max snd (smp_getSamples batch0) (snd hi).
Proof.
  exact (calcLimits_bounds (smp_getSamples batch0) ltac:(discriminate)).
Defined.

(** Samples 2 to 5 of a capture of 10. *)
Lemma exportToWav_range_in_bounds_witness :
  exportToWav_range 10 2 5 = (2, 3)%Z
  ∧ Z.of_nat (length (exportToMatlab_indices 10 2 5)) = 4%Z.
Proof.
  pose proof (exportToWav_range_in_bounds 10 2 5 ltac:(lia) ltac:(lia))
    as Hrange.
  destruct (exportToWav_range 10 2 5) as [offset count] eqn:Hwav.
  destruct Hrange as (_ & _ & _ & Hinside).
  destruct (Hinside ltac:(lia) ltac:(lia) ltac:(lia))
    as (Hoffset & Hcount & Hlen).
  split; [by rewrite Hoffset, Hcount | by rewrite Hlen, Hcount].
Defined.
